(** * TokenMixers / Adaptive Frequency Filters: data samplers and dataset

    A shallow embedding of

    - [data/sampler/variable_batch_sampler.py]: the classes
      [VariableBatchSampler] and [VariableBatchSamplerDDP]
      ([__init__], [__iter__], [update_scales]);
    - [data/datasets/classification/imagenet_opencv_bitplane_fast.py]:
      [ImagenetOpenCVDataset.__getitem__] and [__len__].

    Python integers are [Z]; Python floats are IEEE binary64 numbers in the
    Standard Library's [spec_float]; Python lists are [list]; the data
    dictionary of the dataset is a [gmap string _].  Methods that mutate
    [self] return the new object next to their outcome, so that an exception
    raised half way leaves the fields already written.

    Code the two files call but do not contain is a parameter of the
    methods that use it: [_image_batch_pairs] of [data/sampler/utils.py],
    the constants [DEFAULT_IMAGE_WIDTH] and [DEFAULT_IMAGE_HEIGHT], the
    attributes the base samplers set, the index list [get_indices()]
    returns, the draws of [random.choice], [read_image_opencv], [np.zeros]
    and the objects of the transform library. *)

From Stdlib Require Import ZArith List Bool Lia.
From Stdlib Require Import Floats.SpecFloat.
From stdpp Require Import base list gmap strings.

Local Open Scope Z_scope.

(** ** Python values and exceptions *)

(** The exceptions of the code itself, and [OtherError] for whatever else a
    library it calls may raise, by class name. *)
Inductive exn : Type :=
| IndexError
| TypeError
| OverflowError
| ValueError
| OtherError (class_name : string).

Inductive result (A : Type) : Type :=
| Return (a : A)
| Raise (e : exn).
Arguments Return {A} a.
Arguments Raise {A} e.

(** [len(l)] as a Python integer. *)
Definition len {A} (l : list A) : Z := Z.of_nat (length l).

(** The bound of a slice: a negative bound counts from the end, and the
    result is clipped to [0 .. len]. *)
Definition slice_bound (n i : Z) : Z :=
  let i := if i <? 0 then i + n else i in
  Z.max 0 (Z.min i n).

(** [l[lo:hi]] *)
Definition py_slice {A} (l : list A) (lo hi : Z) : list A :=
  let lo := slice_bound (len l) lo in
  let hi := slice_bound (len l) hi in
  take (Z.to_nat (hi - lo)) (drop (Z.to_nat lo) l).

(** [l[:hi]] *)
Definition py_slice_to {A} (l : list A) (hi : Z) : list A :=
  take (Z.to_nat (slice_bound (len l) hi)) l.

(** The position [l[i]] and [del l[i]] act on, or [IndexError]. *)
Definition py_index {A} (l : list A) (i : Z) : result nat :=
  let j := if i <? 0 then i + len l else i in
  if (0 <=? j) && (j <? len l) then Return (Z.to_nat j) else Raise IndexError.

(** ** Floats: [int * float] and [int(float)] *)

Module PyFloat.

Definition prec : Z := 53.
Definition emax : Z := 1024.

Definition float : Type := spec_float.

(** [float(z)], the conversion [int * float] applies to its left operand:
    round to nearest even, [OverflowError] beyond the largest double. *)
Definition of_int (z : Z) : result float :=
  match binary_normalize prec emax z 0 false with
  | S754_infinity _ => Raise OverflowError
  | f => Return f
  end.

Definition mul (x y : float) : float := SFmul prec emax x y.

(** [int(f)]: truncation towards zero. *)
Definition to_int (f : float) : result Z :=
  match f with
  | S754_zero _ => Return 0
  | S754_finite s m e =>
      let mag := if 0 <=? e then Z.pos m * 2 ^ e else Z.pos m / 2 ^ (- e) in
      Return (if s then - mag else mag)
  | S754_infinity _ => Raise OverflowError
  | S754_nan => Raise ValueError
  end.

(** [int(z * f)] *)
Definition int_mul (z : Z) (f : float) : result Z :=
  match of_int z with
  | Return x => to_int (mul x f)
  | Raise e => Raise e
  end.

(** The double nearest to [n / d]; used to write literals such as [0.5]. *)
Definition of_ratio (n d : Z) : float :=
  SFdiv prec emax (binary_normalize prec emax n 0 false)
                  (binary_normalize prec emax d 0 false).

End PyFloat.

(** ** Options and literals

    [getattr(opts, name, default)] reads an attribute that may be absent. *)

Definition getattr {A} (attr : option A) (default : A) : A :=
  match attr with
  | Some v => v
  | None => default
  end.

(** The literal [1.0]. *)
Definition one_point_zero : PyFloat.float := S754_finite false 4503599627370496 (-52).

(** ** The transforms [ImagenetOpenCVDataset] composes

    [_training_transforms], [_validation_transforms] and
    [_evaluation_transforms] build objects of the transform library; what
    they compose is described here by the list of its stages, each with the
    arguments it is built from ([opts] apart).  Building the objects and
    calling the composed transform are the library's. *)

Module ImagenetOpenCVTransforms.

(** [size: Union[tuple, int]] *)
Inductive size_arg : Type :=
| SizeInt (n : Z)
| SizeSeq (l : list Z).

Inductive stage : Type :=
| RandomResizedCrop (size : size_arg)
| RandomHorizontalFlip
| Resize (size : Z)
| CenterCrop (size : Z)
| BitPlane (h w : Z)
| NumpyToTensor.

(** The lines handed to [logger.warning]. *)
Inductive warning_line : Type :=
| CropRatioOutOfRange (crop_ratio : PyFloat.float)
| SettingScaleSize.

(** The literals [0.875] and [1.0], and the integer [0] compared with a
    float. *)
Definition default_crop_ratio : PyFloat.float := S754_finite false 7881299347898368 (-53).
Definition float_zero : PyFloat.float := S754_zero false.

(** [x < y] on floats; false when either is NaN. *)
Definition float_lt (x y : PyFloat.float) : bool := SFltb x y.

(** [math.ceil(f)] *)
Definition math_ceil (f : PyFloat.float) : result Z :=
  match f with
  | S754_zero _ => Return 0
  | S754_finite s m e =>
      let z := if s then Z.neg m else Z.pos m in
      Return (if 0 <=? e then z * 2 ^ e else - ((- z) / 2 ^ (- e)))
  | S754_infinity _ => Raise OverflowError
  | S754_nan => Raise ValueError
  end.

(** [min(size)] of a tuple or list. *)
Definition py_min (l : list Z) : result Z :=
  match l with
  | [] => Raise ValueError
  | x :: l => Return (foldl Z.min x l)
  end.

(** [size[i]] *)
Definition subscript (size : size_arg) (i : Z) : result Z :=
  match size with
  | SizeInt _ => Raise TypeError
  | SizeSeq l =>
      match py_index l i with
      | Return n => from_option Return (Raise IndexError) (l !! n)
      | Raise e => Raise e
      end
  end.

(** [_training_transforms(size)]: the stages of [aug_list].  The source
    evaluates [size[0]] and [size[1]] after the first two stage objects are
    constructed; [__getitem__] passes a pair, for which neither raises. *)
Definition _training_transforms (size : size_arg) : result (list stage) :=
  match subscript size 0 with
  | Raise e => Raise e
  | Return h =>
      match subscript size 1 with
      | Raise e => Raise e
      | Return w =>
          Return [RandomResizedCrop size; RandomHorizontalFlip; BitPlane h w; NumpyToTensor]
      end
  end.

(** [_validation_transforms(size)]; [crop_ratio] is the option
    [dataset.imagenet.crop_ratio], if set.  The division is reached only
    with [0 < crop_ratio], so that it cannot raise [ZeroDivisionError]. *)
Definition _validation_transforms (dataset_imagenet_crop_ratio : option PyFloat.float)
    (size : size_arg) : result (list stage) * list warning_line :=
  let size :=
    match size with
    | SizeSeq l => py_min l
    | SizeInt n => Return n
    end in
  match size with
  | Raise e => (Raise e, [])
  | Return size =>
      let crop_ratio := getattr dataset_imagenet_crop_ratio default_crop_ratio in
      let compose scale_size :=
        [Resize scale_size; CenterCrop size; BitPlane size size; NumpyToTensor] in
      if float_lt float_zero crop_ratio && float_lt crop_ratio one_point_zero then
        match PyFloat.of_int size with
        | Raise e => (Raise e, [])
        | Return x =>
            match math_ceil (SFdiv PyFloat.prec PyFloat.emax x crop_ratio) with
            | Raise e => (Raise e, [])
            | Return scale_size =>
                let scale_size := (scale_size / 32) * 32 in
                (Return (compose scale_size), [])
            end
        end
      else
        let scale_size := size + 32 in
        (Return (compose scale_size), [CropRatioOutOfRange crop_ratio; SettingScaleSize])
  end.

(** [_evaluation_transforms(size)] *)
Definition _evaluation_transforms (dataset_imagenet_crop_ratio : option PyFloat.float)
    (size : size_arg) : result (list stage) * list warning_line :=
  _validation_transforms dataset_imagenet_crop_ratio size.

End ImagenetOpenCVTransforms.

(** ** Methods on a mutable object

    A method body is a function from the object to an outcome, the object
    after the call and the lines handed to [logger.log] and to
    [logger.warning]. *)

Inductive log_line : Type :=
| ScalesUpdatedIn (class_name : string)
| NewScales (scales : list (Z * Z * Z))
| PossiblyCorrupt (img_index : Z)
| LoggerWarning (line : ImagenetOpenCVTransforms.warning_line).

Definition M (S A : Type) : Type := S -> result A * S * list log_line.

Global Instance M_ret {S} : MRet (M S) := fun A a s => (Return a, s, []).

Global Instance M_bind {S} : MBind (M S) := fun A B k m s =>
  match m s with
  | (Return a, s', l) => let '(r, s'', l') := k a s' in (r, s'', l ++ l')
  | (Raise e, s', l) => (Raise e, s', l)
  end.

Definition lift {S A} (r : result A) : M S A := fun s => (r, s, []).
Definition get {S A} (f : S -> A) : M S A := fun s => (Return (f s), s, []).
Definition modify {S} (f : S -> S) : M S unit := fun s => (Return tt, f s, []).
Definition logger_log {S} (l : log_line) : M S unit := fun s => (Return tt, s, [l]).
Definition logger_warnings {S} (lines : list ImagenetOpenCVTransforms.warning_line)
    : M S unit :=
  fun s => (Return tt, s, map LoggerWarning lines).

(** ** The sampler options *)

(** [sampler.vbs.ep_intervals] is [Union[list, int]]. *)
Inductive ep_intervals : Type :=
| EpList (l : list Z)
| EpInt (n : Z).

Record Opts : Type := {
  sampler_vbs_crop_size_width : option Z;
  sampler_vbs_crop_size_height : option Z;
  sampler_vbs_min_crop_size_width : option Z;
  sampler_vbs_max_crop_size_width : option Z;
  sampler_vbs_min_crop_size_height : option Z;
  sampler_vbs_max_crop_size_height : option Z;
  sampler_vbs_scale_inc : option bool;
  sampler_vbs_ep_intervals : option ep_intervals;
  sampler_vbs_min_scale_inc_factor : option PyFloat.float;
  sampler_vbs_max_scale_inc_factor : option PyFloat.float;
  sampler_vbs_check_scale : option Z;
  sampler_vbs_max_n_scales : option Z
}.


(** A scale tuple [(crop_h, crop_w, batch_size)] and a batch element
    [(crop_h, crop_w, b_id)]. *)
Definition scale_tuple : Type := Z * Z * Z.
Definition batch : Type := list (Z * Z * Z).

(** [_image_batch_pairs] of [data/sampler/utils.py], with its keyword
    arguments in the order the samplers pass them: [crop_size_h],
    [crop_size_w], [batch_size_gpu0], [n_gpus], [max_scales],
    [check_scale_div_factor], [min_crop_size_w], [max_crop_size_w],
    [min_crop_size_h], [max_crop_size_h]. *)
Definition image_batch_pairs_t : Type :=
  Z -> Z -> Z -> Z -> Z -> Z -> Z -> Z -> Z -> Z -> list scale_tuple.

(** ** The generator loop

    [random.choice(seq)] is [seq[randbelow(len(seq))]]; [rnd k] is the raw
    draw of the [k]-th call, reduced to the length of the sequence. *)
Definition random_choice {A} (r : nat) (seq : list A) : result A :=
  match seq !! (r mod length seq)%nat with
  | Some x => Return x
  | None => Raise IndexError
  end.

(** How a pass over a generator ends: it returns, it raises, or the loop is
    still running when the bound on the number of iterations is reached. *)
Inductive ending : Type :=
| Finished
| Raised (e : exn)
| Running.

(** ** [VariableBatchSampler] (data parallel) *)

Module VariableBatchSampler.

(** The attributes the methods read and write.  [batch_size_gpu0] and
    [n_gpus] are set by [BaseSamplerDP.__init__]; [scale_ep_intervals] is
    a list, [__init__] wraps a single integer into one. *)
Record t : Type := {
  batch_size_gpu0 : Z;
  n_gpus : Z;
  min_crop_size_w : Z;
  max_crop_size_w : Z;
  min_crop_size_h : Z;
  max_crop_size_h : Z;
  crop_size_w : Z;
  crop_size_h : Z;
  min_scale_inc_factor : PyFloat.float;
  max_scale_inc_factor : PyFloat.float;
  scale_ep_intervals : list Z;
  max_img_scales : Z;
  check_scale_div_factor : Z;
  scale_inc : bool;
  img_batch_tuples : list scale_tuple
}.

Definition set_min_crop_size_w (v : Z) (self : t) : t :=
  {| batch_size_gpu0 := batch_size_gpu0 self;
     n_gpus := n_gpus self;
     min_crop_size_w := v;
     max_crop_size_w := max_crop_size_w self;
     min_crop_size_h := min_crop_size_h self;
     max_crop_size_h := max_crop_size_h self;
     crop_size_w := crop_size_w self;
     crop_size_h := crop_size_h self;
     min_scale_inc_factor := min_scale_inc_factor self;
     max_scale_inc_factor := max_scale_inc_factor self;
     scale_ep_intervals := scale_ep_intervals self;
     max_img_scales := max_img_scales self;
     check_scale_div_factor := check_scale_div_factor self;
     scale_inc := scale_inc self;
     img_batch_tuples := img_batch_tuples self |}.

Definition set_max_crop_size_w (v : Z) (self : t) : t :=
  {| batch_size_gpu0 := batch_size_gpu0 self;
     n_gpus := n_gpus self;
     min_crop_size_w := min_crop_size_w self;
     max_crop_size_w := v;
     min_crop_size_h := min_crop_size_h self;
     max_crop_size_h := max_crop_size_h self;
     crop_size_w := crop_size_w self;
     crop_size_h := crop_size_h self;
     min_scale_inc_factor := min_scale_inc_factor self;
     max_scale_inc_factor := max_scale_inc_factor self;
     scale_ep_intervals := scale_ep_intervals self;
     max_img_scales := max_img_scales self;
     check_scale_div_factor := check_scale_div_factor self;
     scale_inc := scale_inc self;
     img_batch_tuples := img_batch_tuples self |}.

Definition set_min_crop_size_h (v : Z) (self : t) : t :=
  {| batch_size_gpu0 := batch_size_gpu0 self;
     n_gpus := n_gpus self;
     min_crop_size_w := min_crop_size_w self;
     max_crop_size_w := max_crop_size_w self;
     min_crop_size_h := v;
     max_crop_size_h := max_crop_size_h self;
     crop_size_w := crop_size_w self;
     crop_size_h := crop_size_h self;
     min_scale_inc_factor := min_scale_inc_factor self;
     max_scale_inc_factor := max_scale_inc_factor self;
     scale_ep_intervals := scale_ep_intervals self;
     max_img_scales := max_img_scales self;
     check_scale_div_factor := check_scale_div_factor self;
     scale_inc := scale_inc self;
     img_batch_tuples := img_batch_tuples self |}.

Definition set_max_crop_size_h (v : Z) (self : t) : t :=
  {| batch_size_gpu0 := batch_size_gpu0 self;
     n_gpus := n_gpus self;
     min_crop_size_w := min_crop_size_w self;
     max_crop_size_w := max_crop_size_w self;
     min_crop_size_h := min_crop_size_h self;
     max_crop_size_h := v;
     crop_size_w := crop_size_w self;
     crop_size_h := crop_size_h self;
     min_scale_inc_factor := min_scale_inc_factor self;
     max_scale_inc_factor := max_scale_inc_factor self;
     scale_ep_intervals := scale_ep_intervals self;
     max_img_scales := max_img_scales self;
     check_scale_div_factor := check_scale_div_factor self;
     scale_inc := scale_inc self;
     img_batch_tuples := img_batch_tuples self |}.

Definition set_img_batch_tuples (v : list scale_tuple) (self : t) : t :=
  {| batch_size_gpu0 := batch_size_gpu0 self;
     n_gpus := n_gpus self;
     min_crop_size_w := min_crop_size_w self;
     max_crop_size_w := max_crop_size_w self;
     min_crop_size_h := min_crop_size_h self;
     max_crop_size_h := max_crop_size_h self;
     crop_size_w := crop_size_w self;
     crop_size_h := crop_size_h self;
     min_scale_inc_factor := min_scale_inc_factor self;
     max_scale_inc_factor := max_scale_inc_factor self;
     scale_ep_intervals := scale_ep_intervals self;
     max_img_scales := max_img_scales self;
     check_scale_div_factor := check_scale_div_factor self;
     scale_inc := scale_inc self;
     img_batch_tuples := v |}.

Section Methods.

Variable _image_batch_pairs : image_batch_pairs_t.
Variables DEFAULT_IMAGE_WIDTH DEFAULT_IMAGE_HEIGHT : Z.

(** [__init__]: [super_batch_size_gpu0] and [super_n_gpus] are the two
    attributes [super().__init__] leaves on the object. *)
Definition __init__ (super_batch_size_gpu0 super_n_gpus : Z)
    (opts : Opts) (n_data_samples : Z) (is_training : bool) : t :=
  let crop_size_w := getattr (sampler_vbs_crop_size_width opts) DEFAULT_IMAGE_WIDTH in
  let crop_size_h := getattr (sampler_vbs_crop_size_height opts) DEFAULT_IMAGE_HEIGHT in
  let min_crop_size_w := getattr (sampler_vbs_min_crop_size_width opts) 160 in
  let max_crop_size_w := getattr (sampler_vbs_max_crop_size_width opts) 320 in
  let min_crop_size_h := getattr (sampler_vbs_min_crop_size_height opts) 160 in
  let max_crop_size_h := getattr (sampler_vbs_max_crop_size_height opts) 320 in
  let scale_inc := getattr (sampler_vbs_scale_inc opts) false in
  let scale_ep_intervals := getattr (sampler_vbs_ep_intervals opts) (EpList [40]) in
  let min_scale_inc_factor := getattr (sampler_vbs_min_scale_inc_factor opts) one_point_zero in
  let max_scale_inc_factor := getattr (sampler_vbs_max_scale_inc_factor opts) one_point_zero in
  let check_scale_div_factor := getattr (sampler_vbs_check_scale opts) 32 in
  let max_img_scales := getattr (sampler_vbs_max_n_scales opts) 10 in
  let scale_ep_intervals :=
    match scale_ep_intervals with
    | EpInt n => [n]
    | EpList l => l
    end in
  {| batch_size_gpu0 := super_batch_size_gpu0;
     n_gpus := super_n_gpus;
     min_crop_size_w := min_crop_size_w;
     max_crop_size_w := max_crop_size_w;
     min_crop_size_h := min_crop_size_h;
     max_crop_size_h := max_crop_size_h;
     crop_size_w := crop_size_w;
     crop_size_h := crop_size_h;
     min_scale_inc_factor := min_scale_inc_factor;
     max_scale_inc_factor := max_scale_inc_factor;
     scale_ep_intervals := scale_ep_intervals;
     max_img_scales := max_img_scales;
     check_scale_div_factor := check_scale_div_factor;
     scale_inc := scale_inc;
     img_batch_tuples :=
       if is_training then
         _image_batch_pairs crop_size_h crop_size_w super_batch_size_gpu0
           super_n_gpus max_img_scales check_scale_div_factor
           min_crop_size_w max_crop_size_w min_crop_size_h max_crop_size_h
       else [(crop_size_h, crop_size_w, super_batch_size_gpu0)] |}.

(** The body of [__iter__]: [fuel] bounds the number of times the loop
    condition is tested, [draws] counts the calls of [random.choice]. *)
Fixpoint while_loop (rnd : nat -> nat) (tuples : list scale_tuple)
    (img_indices : list Z) (fuel draws : nat) (start_index : Z)
    : list batch * ending :=
  let n_samples := len img_indices in
  match fuel with
  | O => ([], Running)
  | S fuel =>
      if start_index <? n_samples then
        match random_choice (rnd draws) tuples with
        | Raise e => ([], Raised e)
        | Return (crop_h, crop_w, batch_size) =>
            let end_index := Z.min (start_index + batch_size) n_samples in
            let batch_ids := py_slice img_indices start_index end_index in
            let n_batch_samples := len batch_ids in
            let batch_ids :=
              if negb (len batch_ids =? batch_size)
              then batch_ids ++ py_slice_to img_indices (batch_size - n_batch_samples)
              else batch_ids in
            let start_index := start_index + batch_size in
            let '(rest, e) := while_loop rnd tuples img_indices fuel (S draws) start_index in
            if 0 <? len batch_ids
            then (map (fun b_id => (crop_h, crop_w, b_id)) batch_ids :: rest, e)
            else (rest, e)
        end
      else ([], Finished)
  end.

(** [__iter__]: [get_indices] is what [self.get_indices()] returns. *)
Definition __iter__ (self : t) (get_indices : list Z) (rnd : nat -> nat)
    (fuel : nat) : list batch * ending :=
  while_loop rnd (img_batch_tuples self) get_indices fuel 0 0.

Definition update_scales (epoch : Z) (is_master_node : bool) : M t unit :=
  member ← get (fun self => bool_decide (epoch ∈ scale_ep_intervals self));
  inc ← get scale_inc;
  if member && inc then
    w ← get min_crop_size_w; f ← get min_scale_inc_factor;
    d ← lift (PyFloat.int_mul w f);
    modify (set_min_crop_size_w (w + d));;
    w ← get max_crop_size_w; f ← get max_scale_inc_factor;
    d ← lift (PyFloat.int_mul w f);
    modify (set_max_crop_size_w (w + d));;
    h ← get min_crop_size_h; f ← get min_scale_inc_factor;
    d ← lift (PyFloat.int_mul h f);
    modify (set_min_crop_size_h (h + d));;
    h ← get max_crop_size_h; f ← get max_scale_inc_factor;
    d ← lift (PyFloat.int_mul h f);
    modify (set_max_crop_size_h (h + d));;
    pairs ← get (fun self =>
      _image_batch_pairs (crop_size_h self) (crop_size_w self)
        (batch_size_gpu0 self) (n_gpus self) (max_img_scales self)
        (check_scale_div_factor self)
        (min_crop_size_w self) (max_crop_size_w self)
        (min_crop_size_h self) (max_crop_size_h self));
    modify (set_img_batch_tuples pairs);;
    if is_master_node then
      logger_log (ScalesUpdatedIn "VariableBatchSampler");;
      tuples ← get img_batch_tuples;
      logger_log (NewScales tuples)
    else mret tt
  else mret tt.

End Methods.

End VariableBatchSampler.

(** ** [VariableBatchSamplerDDP] (distributed data parallel) *)

(** [epoch in x]: an integer is not a container. *)
Definition py_in (epoch : Z) (x : ep_intervals) : result bool :=
  match x with
  | EpList l => Return (bool_decide (epoch ∈ l))
  | EpInt _ => Raise TypeError
  end.

Module VariableBatchSamplerDDP.

(** [batch_size_gpu0] and [num_replicas] are set by
    [BaseSamplerDDP.__init__]; [scale_ep_intervals] is stored as the
    options give it. *)
Record t : Type := {
  batch_size_gpu0 : Z;
  num_replicas : Z;
  min_crop_size_w : Z;
  max_crop_size_w : Z;
  min_crop_size_h : Z;
  max_crop_size_h : Z;
  crop_size_w : Z;
  crop_size_h : Z;
  min_scale_inc_factor : PyFloat.float;
  max_scale_inc_factor : PyFloat.float;
  scale_ep_intervals : ep_intervals;
  max_img_scales : Z;
  check_scale_div_factor : Z;
  scale_inc : bool;
  img_batch_tuples : list scale_tuple
}.

Definition set_min_crop_size_w (v : Z) (self : t) : t :=
  {| batch_size_gpu0 := batch_size_gpu0 self;
     num_replicas := num_replicas self;
     min_crop_size_w := v;
     max_crop_size_w := max_crop_size_w self;
     min_crop_size_h := min_crop_size_h self;
     max_crop_size_h := max_crop_size_h self;
     crop_size_w := crop_size_w self;
     crop_size_h := crop_size_h self;
     min_scale_inc_factor := min_scale_inc_factor self;
     max_scale_inc_factor := max_scale_inc_factor self;
     scale_ep_intervals := scale_ep_intervals self;
     max_img_scales := max_img_scales self;
     check_scale_div_factor := check_scale_div_factor self;
     scale_inc := scale_inc self;
     img_batch_tuples := img_batch_tuples self |}.

Definition set_max_crop_size_w (v : Z) (self : t) : t :=
  {| batch_size_gpu0 := batch_size_gpu0 self;
     num_replicas := num_replicas self;
     min_crop_size_w := min_crop_size_w self;
     max_crop_size_w := v;
     min_crop_size_h := min_crop_size_h self;
     max_crop_size_h := max_crop_size_h self;
     crop_size_w := crop_size_w self;
     crop_size_h := crop_size_h self;
     min_scale_inc_factor := min_scale_inc_factor self;
     max_scale_inc_factor := max_scale_inc_factor self;
     scale_ep_intervals := scale_ep_intervals self;
     max_img_scales := max_img_scales self;
     check_scale_div_factor := check_scale_div_factor self;
     scale_inc := scale_inc self;
     img_batch_tuples := img_batch_tuples self |}.

Definition set_min_crop_size_h (v : Z) (self : t) : t :=
  {| batch_size_gpu0 := batch_size_gpu0 self;
     num_replicas := num_replicas self;
     min_crop_size_w := min_crop_size_w self;
     max_crop_size_w := max_crop_size_w self;
     min_crop_size_h := v;
     max_crop_size_h := max_crop_size_h self;
     crop_size_w := crop_size_w self;
     crop_size_h := crop_size_h self;
     min_scale_inc_factor := min_scale_inc_factor self;
     max_scale_inc_factor := max_scale_inc_factor self;
     scale_ep_intervals := scale_ep_intervals self;
     max_img_scales := max_img_scales self;
     check_scale_div_factor := check_scale_div_factor self;
     scale_inc := scale_inc self;
     img_batch_tuples := img_batch_tuples self |}.

Definition set_max_crop_size_h (v : Z) (self : t) : t :=
  {| batch_size_gpu0 := batch_size_gpu0 self;
     num_replicas := num_replicas self;
     min_crop_size_w := min_crop_size_w self;
     max_crop_size_w := max_crop_size_w self;
     min_crop_size_h := min_crop_size_h self;
     max_crop_size_h := v;
     crop_size_w := crop_size_w self;
     crop_size_h := crop_size_h self;
     min_scale_inc_factor := min_scale_inc_factor self;
     max_scale_inc_factor := max_scale_inc_factor self;
     scale_ep_intervals := scale_ep_intervals self;
     max_img_scales := max_img_scales self;
     check_scale_div_factor := check_scale_div_factor self;
     scale_inc := scale_inc self;
     img_batch_tuples := img_batch_tuples self |}.

Definition set_img_batch_tuples (v : list scale_tuple) (self : t) : t :=
  {| batch_size_gpu0 := batch_size_gpu0 self;
     num_replicas := num_replicas self;
     min_crop_size_w := min_crop_size_w self;
     max_crop_size_w := max_crop_size_w self;
     min_crop_size_h := min_crop_size_h self;
     max_crop_size_h := max_crop_size_h self;
     crop_size_w := crop_size_w self;
     crop_size_h := crop_size_h self;
     min_scale_inc_factor := min_scale_inc_factor self;
     max_scale_inc_factor := max_scale_inc_factor self;
     scale_ep_intervals := scale_ep_intervals self;
     max_img_scales := max_img_scales self;
     check_scale_div_factor := check_scale_div_factor self;
     scale_inc := scale_inc self;
     img_batch_tuples := v |}.

Section Methods.

Variable _image_batch_pairs : image_batch_pairs_t.
Variables DEFAULT_IMAGE_WIDTH DEFAULT_IMAGE_HEIGHT : Z.

Definition __init__ (super_batch_size_gpu0 super_num_replicas : Z)
    (opts : Opts) (n_data_samples : Z) (is_training : bool) : t :=
  let crop_size_w := getattr (sampler_vbs_crop_size_width opts) DEFAULT_IMAGE_WIDTH in
  let crop_size_h := getattr (sampler_vbs_crop_size_height opts) DEFAULT_IMAGE_HEIGHT in
  let min_crop_size_w := getattr (sampler_vbs_min_crop_size_width opts) 160 in
  let max_crop_size_w := getattr (sampler_vbs_max_crop_size_width opts) 320 in
  let min_crop_size_h := getattr (sampler_vbs_min_crop_size_height opts) 160 in
  let max_crop_size_h := getattr (sampler_vbs_max_crop_size_height opts) 320 in
  let scale_inc := getattr (sampler_vbs_scale_inc opts) false in
  let scale_ep_intervals := getattr (sampler_vbs_ep_intervals opts) (EpList [40]) in
  let min_scale_inc_factor := getattr (sampler_vbs_min_scale_inc_factor opts) one_point_zero in
  let max_scale_inc_factor := getattr (sampler_vbs_max_scale_inc_factor opts) one_point_zero in
  let check_scale_div_factor := getattr (sampler_vbs_check_scale opts) 32 in
  let max_img_scales := getattr (sampler_vbs_max_n_scales opts) 10 in
  {| batch_size_gpu0 := super_batch_size_gpu0;
     num_replicas := super_num_replicas;
     min_crop_size_w := min_crop_size_w;
     max_crop_size_w := max_crop_size_w;
     min_crop_size_h := min_crop_size_h;
     max_crop_size_h := max_crop_size_h;
     crop_size_w := crop_size_w;
     crop_size_h := crop_size_h;
     min_scale_inc_factor := min_scale_inc_factor;
     max_scale_inc_factor := max_scale_inc_factor;
     scale_ep_intervals := scale_ep_intervals;
     max_img_scales := max_img_scales;
     check_scale_div_factor := check_scale_div_factor;
     scale_inc := scale_inc;
     img_batch_tuples :=
       if is_training then
         _image_batch_pairs crop_size_h crop_size_w super_batch_size_gpu0
           super_num_replicas max_img_scales check_scale_div_factor
           min_crop_size_w max_crop_size_w min_crop_size_h max_crop_size_h
       else [(crop_size_h, crop_size_w, super_batch_size_gpu0)] |}.

(** The body of [__iter__]: [fuel] bounds the number of times the loop
    condition is tested, [draws] counts the calls of [random.choice]. *)
Fixpoint while_loop (rnd : nat -> nat) (tuples : list scale_tuple)
    (indices_rank_i : list Z) (fuel draws : nat) (start_index : Z)
    : list batch * ending :=
  let n_samples_rank_i := len indices_rank_i in
  match fuel with
  | O => ([], Running)
  | S fuel =>
      if start_index <? n_samples_rank_i then
        match random_choice (rnd draws) tuples with
        | Raise e => ([], Raised e)
        | Return (crop_h, crop_w, batch_size) =>
            let end_index := Z.min (start_index + batch_size) n_samples_rank_i in
            let batch_ids := py_slice indices_rank_i start_index end_index in
            let n_batch_samples := len batch_ids in
            let batch_ids :=
              if negb (n_batch_samples =? batch_size)
              then batch_ids ++ py_slice_to indices_rank_i (batch_size - n_batch_samples)
              else batch_ids in
            let start_index := start_index + batch_size in
            let '(rest, e) := while_loop rnd tuples indices_rank_i fuel (S draws) start_index in
            if 0 <? len batch_ids
            then (map (fun b_id => (crop_h, crop_w, b_id)) batch_ids :: rest, e)
            else (rest, e)
        end
      else ([], Finished)
  end.

(** [__iter__]: [get_indices_rank_i] is what
    [self.get_indices_rank_i()] returns. *)
Definition __iter__ (self : t) (get_indices_rank_i : list Z)
    (rnd : nat -> nat) (fuel : nat) : list batch * ending :=
  while_loop rnd (img_batch_tuples self) get_indices_rank_i fuel 0 0.

Definition update_scales (epoch : Z) (is_master_node : bool) : M t unit :=
  epoch_in ← get scale_ep_intervals;
  member ← lift (py_in epoch epoch_in);
  inc ← get scale_inc;
  if member && inc then
    w ← get min_crop_size_w; f ← get min_scale_inc_factor;
    d ← lift (PyFloat.int_mul w f);
    modify (set_min_crop_size_w (w + d));;
    w ← get max_crop_size_w; f ← get max_scale_inc_factor;
    d ← lift (PyFloat.int_mul w f);
    modify (set_max_crop_size_w (w + d));;
    h ← get min_crop_size_h; f ← get min_scale_inc_factor;
    d ← lift (PyFloat.int_mul h f);
    modify (set_min_crop_size_h (h + d));;
    h ← get max_crop_size_h; f ← get max_scale_inc_factor;
    d ← lift (PyFloat.int_mul h f);
    modify (set_max_crop_size_h (h + d));;
    pairs ← get (fun self =>
      _image_batch_pairs (crop_size_h self) (crop_size_w self)
        (batch_size_gpu0 self) (num_replicas self) (max_img_scales self)
        (check_scale_div_factor self)
        (min_crop_size_w self) (max_crop_size_w self)
        (min_crop_size_h self) (max_crop_size_h self));
    modify (set_img_batch_tuples pairs);;
    if is_master_node then
      logger_log (ScalesUpdatedIn "VariableBatchSamplerDDP");;
      tuples ← get img_batch_tuples;
      logger_log (NewScales tuples)
    else mret tt
  else mret tt.

End Methods.

End VariableBatchSamplerDDP.

(** ** [ImagenetOpenCVDataset] *)

(** A decoded image: a [uint8] array of shape height x width x channels. *)
Definition ndarray : Type := list (list (list Z)).

Module ImagenetOpenCVDataset.

Section Methods.

(** What the transforms leave under the key [image]. *)
Variable Tensor : Type.

Inductive value : Type :=
| VArray (a : ndarray)
| VTensor (x : Tensor)
| VInt (z : Z).

(** [self.read_image_opencv(path)]: [None] when OpenCV cannot decode
    the file. *)
Variable read_image_opencv : string -> option ndarray.

(** [np.zeros(shape=(h, w, c), dtype=np.uint8)] of numpy: the array, or the
    exception numpy raises for a shape it refuses or cannot allocate. *)
Variable np_zeros : Z -> Z -> Z -> result ndarray.

(** The transform library.  [tf_Compose stages] builds the stage objects
    and [tf.Compose(opts, img_transforms=...)] of them; [compose_call t data]
    is the call [t(data)], one run of the random augmentations.  Either may
    raise. *)
Variable Compose : Type.
Variable tf_Compose : list ImagenetOpenCVTransforms.stage -> result Compose.
Variable compose_call : Compose -> gmap string value -> result (gmap string value).

(** [opts_dataset_imagenet_crop_ratio] is the attribute
    [dataset.imagenet.crop_ratio] of [self.opts], if set; [samples] is the
    list of [(path, class index)] pairs [ImageFolder] collects. *)
Record t : Type := {
  is_training : bool;
  opts_dataset_imagenet_crop_ratio : option PyFloat.float;
  samples : list (string * Z)
}.

Definition set_samples (v : list (string * Z)) (self : t) : t :=
  {| is_training := is_training self;
     opts_dataset_imagenet_crop_ratio := opts_dataset_imagenet_crop_ratio self;
     samples := v |}.

Definition _training_transforms (size : ImagenetOpenCVTransforms.size_arg) : M t Compose :=
  stages ← lift (ImagenetOpenCVTransforms._training_transforms size);
  lift (tf_Compose stages).

Definition _validation_transforms (size : ImagenetOpenCVTransforms.size_arg) : M t Compose :=
  crop_ratio ← get opts_dataset_imagenet_crop_ratio;
  let built := ImagenetOpenCVTransforms._validation_transforms crop_ratio size in
  logger_warnings built.2;;
  stages ← lift built.1;
  lift (tf_Compose stages).

Definition __getitem__ (batch_indexes_tup : Z * Z * Z) : M t (gmap string value) :=
  let '(crop_size_h, crop_size_w, img_index) := batch_indexes_tup in
  training ← get is_training;
  transform_fn ←
    (if (training : bool)
     then _training_transforms (ImagenetOpenCVTransforms.SizeSeq [crop_size_h; crop_size_w])
     else _validation_transforms (ImagenetOpenCVTransforms.SizeSeq [crop_size_h; crop_size_w]));
  l ← get samples;
  i ← lift (py_index l img_index);
  sample ← lift (from_option Return (Raise IndexError) (l !! i));
  let '(img_path, target) := (sample : string * Z) in
  input_img ←
    match read_image_opencv img_path with
    | None =>
        logger_log (PossiblyCorrupt img_index);;
        l ← get samples;
        i ← lift (py_index l img_index);
        modify (set_samples (delete i l));;
        lift (np_zeros crop_size_h crop_size_w 3)
    | Some input_img => mret input_img
    end;
  let data : gmap string value := {[ "image" := VArray input_img ]} in
  data ← lift (compose_call transform_fn data);
  let data := <[ "label" := VInt target ]> data in
  let data := <[ "sample_id" := VInt img_index ]> data in
  mret data.

Definition __len__ (self : t) : Z := len (samples self).

End Methods.

Arguments VArray {Tensor} a.
Arguments VInt {Tensor} z.
Arguments VTensor {Tensor} x.

End ImagenetOpenCVDataset.
(** ** Describing a pass of [__iter__]

    A pass is described by its iterations: the start index and the scale
    tuple drawn at each.  The batch of an iteration is the contiguous slice
    that begins at the start index, followed by the padding taken from the
    front of the index list. *)

Definition iteration : Type := Z * scale_tuple.

Definition slice_end (n : Z) (it : iteration) : Z :=
  let '(s, (_, _, b)) := it in Z.min (s + b) n.

Definition slice_of (idx : list Z) (it : iteration) : list Z :=
  take (Z.to_nat (slice_end (len idx) it - it.1)) (drop (Z.to_nat it.1) idx).

Definition padding_of (idx : list Z) (it : iteration) : list Z :=
  let '(s, (_, _, b)) := it in
  take (Z.to_nat (b - (slice_end (len idx) it - s))) idx.

Definition yielded (idx : list Z) (it : iteration) : batch :=
  let '(_, (h, w, _)) := it in
  map (fun b_id => (h, w, b_id)) (slice_of idx it ++ padding_of idx it).

(** Each iteration starts where the slice of the one before it ended. *)
Fixpoint chained (n s : Z) (its : list iteration) : Prop :=
  match its with
  | [] => True
  | it :: rest => it.1 = s /\ chained n (slice_end n it) rest
  end.

Definition positive_batch_sizes (tuples : list scale_tuple) : Prop :=
  forall h w b, (h, w, b) ∈ tuples -> 1 <= b.

(** The distributed sampler in the same state as a data-parallel one: every
    attribute has the same value, [num_replicas] standing where [n_gpus]
    does. *)
Definition as_ddp (self : VariableBatchSampler.t) : VariableBatchSamplerDDP.t :=
  {| VariableBatchSamplerDDP.batch_size_gpu0 := VariableBatchSampler.batch_size_gpu0 self;
     VariableBatchSamplerDDP.num_replicas := VariableBatchSampler.n_gpus self;
     VariableBatchSamplerDDP.min_crop_size_w := VariableBatchSampler.min_crop_size_w self;
     VariableBatchSamplerDDP.max_crop_size_w := VariableBatchSampler.max_crop_size_w self;
     VariableBatchSamplerDDP.min_crop_size_h := VariableBatchSampler.min_crop_size_h self;
     VariableBatchSamplerDDP.max_crop_size_h := VariableBatchSampler.max_crop_size_h self;
     VariableBatchSamplerDDP.crop_size_w := VariableBatchSampler.crop_size_w self;
     VariableBatchSamplerDDP.crop_size_h := VariableBatchSampler.crop_size_h self;
     VariableBatchSamplerDDP.min_scale_inc_factor := VariableBatchSampler.min_scale_inc_factor self;
     VariableBatchSamplerDDP.max_scale_inc_factor := VariableBatchSampler.max_scale_inc_factor self;
     VariableBatchSamplerDDP.scale_ep_intervals :=
       EpList (VariableBatchSampler.scale_ep_intervals self);
     VariableBatchSamplerDDP.max_img_scales := VariableBatchSampler.max_img_scales self;
     VariableBatchSamplerDDP.check_scale_div_factor := VariableBatchSampler.check_scale_div_factor self;
     VariableBatchSamplerDDP.scale_inc := VariableBatchSampler.scale_inc self;
     VariableBatchSamplerDDP.img_batch_tuples := VariableBatchSampler.img_batch_tuples self |}.

(** ** The transform of a call of [__getitem__]

    Lines 111-114: the transform [__getitem__] builds for a crop size, by
    the mode of the dataset. *)
Definition transform_for {Compose : Type}
    (tf_Compose : list ImagenetOpenCVTransforms.stage -> result Compose)
    (self : ImagenetOpenCVDataset.t) (crop_h crop_w : Z)
    : M ImagenetOpenCVDataset.t Compose :=
  if ImagenetOpenCVDataset.is_training self
  then ImagenetOpenCVDataset._training_transforms Compose tf_Compose
         (ImagenetOpenCVTransforms.SizeSeq [crop_h; crop_w])
  else ImagenetOpenCVDataset._validation_transforms Compose tf_Compose
         (ImagenetOpenCVTransforms.SizeSeq [crop_h; crop_w]).

(** ** Describing the handling of a corrupt image

    The reading of "skipping" under which the caller gets no item for an
    image that cannot be decoded: the sample leaves the list, and if the
    call returns a data item, it is not one made for that sample, carrying
    its label and its index as [sample_id]. *)
Definition skips_corrupt_image {Tensor Compose : Type}
    (read_image_opencv : string -> option ndarray)
    (np_zeros : Z -> Z -> Z -> result ndarray)
    (tf_Compose : list ImagenetOpenCVTransforms.stage -> result Compose)
    (compose_call : Compose -> gmap string (ImagenetOpenCVDataset.value Tensor)
                    -> result (gmap string (ImagenetOpenCVDataset.value Tensor))) : Prop :=
  forall (self : ImagenetOpenCVDataset.t) crop_h crop_w img_index i img_path target,
    py_index (ImagenetOpenCVDataset.samples self) img_index = Return i ->
    ImagenetOpenCVDataset.samples self !! i = Some (img_path, target) ->
    read_image_opencv img_path = None ->
    let run := ImagenetOpenCVDataset.__getitem__ Tensor read_image_opencv np_zeros
                 Compose tf_Compose compose_call
                 (crop_h, crop_w, img_index) self in
    ImagenetOpenCVDataset.__len__ run.1.2 = ImagenetOpenCVDataset.__len__ self - 1
    /\ forall data,
         run.1.1 = Return data ->
         ~ (data !! "label" = Some (ImagenetOpenCVDataset.VInt target)
            /\ data !! "sample_id" = Some (ImagenetOpenCVDataset.VInt img_index)).

(** ** Describing a sampler over its life

    The sampler after a sequence of calls [update_scales(epoch,
    is_master_node)], whatever their outcomes. *)
Definition update_all (_image_batch_pairs : image_batch_pairs_t)
    (calls : list (Z * bool)) (self : VariableBatchSampler.t) : VariableBatchSampler.t :=
  foldl (fun s call => (VariableBatchSampler.update_scales _image_batch_pairs
                          call.1 call.2 s).1.2) self calls.

Definition update_all_ddp (_image_batch_pairs : image_batch_pairs_t)
    (calls : list (Z * bool)) (self : VariableBatchSamplerDDP.t)
    : VariableBatchSamplerDDP.t :=
  foldl (fun s call => (VariableBatchSamplerDDP.update_scales _image_batch_pairs
                          call.1 call.2 s).1.2) self calls.

(** The reading of "only in training mode" over the life of a sampler: a
    sampler built with [is_training] false yields batches of the base crop
    size after any calls of [update_scales]. *)
Definition validation_always_base_scale (_image_batch_pairs : image_batch_pairs_t)
    (DEFAULT_IMAGE_WIDTH DEFAULT_IMAGE_HEIGHT : Z) : Prop :=
  forall (b0 n : Z) (opts : Opts) (n_data_samples : Z) (calls : list (Z * bool))
         (indices : list Z) (rnd : nat -> nat) (fuel : nat),
    let built := VariableBatchSampler.__init__ _image_batch_pairs
                   DEFAULT_IMAGE_WIDTH DEFAULT_IMAGE_HEIGHT b0 n opts n_data_samples false in
    Forall (fun b : batch =>
              Forall (fun x => x.1 = (VariableBatchSampler.crop_size_h built,
                                      VariableBatchSampler.crop_size_w built)) b)
           (VariableBatchSampler.__iter__ (update_all _image_batch_pairs calls built)
              indices rnd fuel).1.

(** ** Sample objects

    Concrete options, samplers and a dataset on which the properties below
    are instantiated. *)

(** A stand-in for [_image_batch_pairs]: the base scale and the smallest
    scale, both at the base batch size.  The properties hold for every
    function of this type. *)
Definition sample_pairs : image_batch_pairs_t :=
  fun crop_size_h crop_size_w batch_size_gpu0 n_gpus max_scales check_scale_div_factor
      min_crop_size_w max_crop_size_w min_crop_size_h max_crop_size_h =>
    [(crop_size_h, crop_size_w, batch_size_gpu0);
     (min_crop_size_h, min_crop_size_w, batch_size_gpu0)].

(** [--sampler.vbs.scale-inc --sampler.vbs.min-scale-inc-factor 0.5], the
    rest left to the defaults. *)
Definition sample_opts : Opts :=
  {| sampler_vbs_crop_size_width := None;
     sampler_vbs_crop_size_height := None;
     sampler_vbs_min_crop_size_width := None;
     sampler_vbs_max_crop_size_width := None;
     sampler_vbs_min_crop_size_height := None;
     sampler_vbs_max_crop_size_height := None;
     sampler_vbs_scale_inc := Some true;
     sampler_vbs_ep_intervals := None;
     sampler_vbs_min_scale_inc_factor := Some (PyFloat.of_ratio 1 2);
     sampler_vbs_max_scale_inc_factor := None;
     sampler_vbs_check_scale := None;
     sampler_vbs_max_n_scales := None |}.

(** The same options with [--sampler.vbs.ep-intervals 40], which the
    argument parser reads as an integer. *)
Definition sample_opts_int : Opts :=
  {| sampler_vbs_crop_size_width := None;
     sampler_vbs_crop_size_height := None;
     sampler_vbs_min_crop_size_width := None;
     sampler_vbs_max_crop_size_width := None;
     sampler_vbs_min_crop_size_height := None;
     sampler_vbs_max_crop_size_height := None;
     sampler_vbs_scale_inc := Some true;
     sampler_vbs_ep_intervals := Some (EpInt 40);
     sampler_vbs_min_scale_inc_factor := Some (PyFloat.of_ratio 1 2);
     sampler_vbs_max_scale_inc_factor := None;
     sampler_vbs_check_scale := None;
     sampler_vbs_max_n_scales := None |}.

(** Training samplers with a base crop of 224 x 224, four images per GPU
    and one GPU. *)
Definition sample_sampler : VariableBatchSampler.t :=
  VariableBatchSampler.__init__ sample_pairs 224 224 4 1 sample_opts 100 true.

Definition sample_sampler_ddp : VariableBatchSamplerDDP.t :=
  VariableBatchSamplerDDP.__init__ sample_pairs 224 224 4 1 sample_opts 100 true.

Definition sample_indices : list Z := [0; 1; 2; 3; 4; 5; 6; 7; 8; 9].

(** Draws that alternate between the scale tuples. *)
Definition sample_rnd : nat -> nat := fun k => k.

(** A dataset of two files, none of which OpenCV can decode, in training
    mode and with the default crop ratio. *)
Definition sample_dataset : ImagenetOpenCVDataset.t :=
  {| ImagenetOpenCVDataset.is_training := true;
     ImagenetOpenCVDataset.opts_dataset_imagenet_crop_ratio := None;
     ImagenetOpenCVDataset.samples := [("n01440764/a.JPEG", 0); ("n01443537/b.JPEG", 1)] |}.

Definition sample_read_image_opencv : string -> option ndarray := fun _ => None.

(** Stand-ins for numpy and the transform library: zeros for a shape
    without a negative dimension, a composed transform that is the list of
    its stages, and a call that leaves the data as it is. *)
Definition sample_np_zeros (h w c : Z) : result ndarray :=
  if (h <? 0) || (w <? 0) || (c <? 0) then Raise ValueError
  else Return (replicate (Z.to_nat h) (replicate (Z.to_nat w) (replicate (Z.to_nat c) 0))).

Definition sample_tf_Compose (stages : list ImagenetOpenCVTransforms.stage)
    : result (list ImagenetOpenCVTransforms.stage) :=
  Return stages.

Definition sample_compose_call (transform : list ImagenetOpenCVTransforms.stage)
    (data : gmap string (ImagenetOpenCVDataset.value unit))
    : result (gmap string (ImagenetOpenCVDataset.value unit)) :=
  Return data.

(** Decidable forms of the conditions on batch sizes. *)
Definition batch_sizes_within (lo hi : Z) (tuples : list scale_tuple) : bool :=
  forallb (fun t : scale_tuple => (lo <=? t.2) && (t.2 <=? hi)) tuples.

(** Runs a method body down to its outcome. *)
Ltac run_method :=
  unfold VariableBatchSampler.update_scales, VariableBatchSamplerDDP.update_scales,
    mbind, M_bind, mret, M_ret, get, lift, modify, logger_log;
  cbn beta iota.


(** ** Checks by evaluation *)

(** [f] holds of the [n] integers from [z] on. *)
Fixpoint all_from (f : Z -> bool) (z : Z) (n : nat) : bool :=
  match n with
  | O => true
  | S n => f z && all_from f (z + 1) n
  end.

(** [int(k * 1.0) == k] for every [k] from 0 to [n]. *)
Definition int_mul_one_upto (n : Z) : bool :=
  all_from (fun k =>
              match PyFloat.int_mul k one_point_zero with
              | Return r => r =? k
              | Raise _ => false
              end)
           0 (Z.to_nat (n + 1)).

(** [ceil(m / 0.875)] is [ceil(8 m / 7)] for every [m] from 1 to [n]. *)
Definition ceil_default_ratio_upto (n : Z) : bool :=
  all_from (fun k =>
              match PyFloat.of_int k with
              | Return x =>
                  match ImagenetOpenCVTransforms.math_ceil
                          (SFdiv PyFloat.prec PyFloat.emax x
                             ImagenetOpenCVTransforms.default_crop_ratio) with
                  | Return c => c =? (8 * k + 6) / 7
                  | Raise _ => false
                  end
              | Raise _ => false
              end)
           1 (Z.to_nat n).

(** ** More sample objects *)

(** The sample sampler with a single scale tuple of batch size 0. *)
Definition sample_sampler_zero : VariableBatchSampler.t :=
  VariableBatchSampler.set_img_batch_tuples [(224, 224, 0)] sample_sampler.

(** The sample sampler without scale tuples. *)
Definition sample_sampler_empty : VariableBatchSampler.t :=
  VariableBatchSampler.set_img_batch_tuples [] sample_sampler.

(** A validation sampler: three images per GPU. *)
Definition sample_sampler_val : VariableBatchSampler.t :=
  VariableBatchSampler.__init__ sample_pairs 224 224 3 1 sample_opts 100 false.

(** [--sampler.vbs.scale-inc] with an infinite factor for the maximum
    bounds. *)
Definition sample_opts_inf : Opts :=
  {| sampler_vbs_crop_size_width := None;
     sampler_vbs_crop_size_height := None;
     sampler_vbs_min_crop_size_width := None;
     sampler_vbs_max_crop_size_width := None;
     sampler_vbs_min_crop_size_height := None;
     sampler_vbs_max_crop_size_height := None;
     sampler_vbs_scale_inc := Some true;
     sampler_vbs_ep_intervals := None;
     sampler_vbs_min_scale_inc_factor := Some (PyFloat.of_ratio 1 2);
     sampler_vbs_max_scale_inc_factor := Some (S754_infinity false);
     sampler_vbs_check_scale := None;
     sampler_vbs_max_n_scales := None |}.

Definition sample_sampler_inf : VariableBatchSampler.t :=
  VariableBatchSampler.__init__ sample_pairs 224 224 4 1 sample_opts_inf 100 true.

(** [--sampler.vbs.scale-inc] alone: both factors at their default. *)
Definition sample_opts_default : Opts :=
  {| sampler_vbs_crop_size_width := None;
     sampler_vbs_crop_size_height := None;
     sampler_vbs_min_crop_size_width := None;
     sampler_vbs_max_crop_size_width := None;
     sampler_vbs_min_crop_size_height := None;
     sampler_vbs_max_crop_size_height := None;
     sampler_vbs_scale_inc := Some true;
     sampler_vbs_ep_intervals := None;
     sampler_vbs_min_scale_inc_factor := None;
     sampler_vbs_max_scale_inc_factor := None;
     sampler_vbs_check_scale := None;
     sampler_vbs_max_n_scales := None |}.

Definition sample_sampler_default : VariableBatchSampler.t :=
  VariableBatchSampler.__init__ sample_pairs 224 224 4 1 sample_opts_default 100 true.

(** A reader that decodes every file to the same one-pixel image. *)
Definition sample_read_one_pixel : string -> option ndarray :=
  fun _ => Some [[[10; 20; 30]]].

(** The sample dataset in validation mode, with a crop ratio of 1.0 and
    with the default crop ratio. *)
Definition sample_dataset_val : ImagenetOpenCVDataset.t :=
  {| ImagenetOpenCVDataset.is_training := false;
     ImagenetOpenCVDataset.opts_dataset_imagenet_crop_ratio := Some one_point_zero;
     ImagenetOpenCVDataset.samples := [("n01440764/a.JPEG", 0); ("n01443537/b.JPEG", 1)] |}.

Definition sample_dataset_default_val : ImagenetOpenCVDataset.t :=
  {| ImagenetOpenCVDataset.is_training := false;
     ImagenetOpenCVDataset.opts_dataset_imagenet_crop_ratio := None;
     ImagenetOpenCVDataset.samples := [("n01440764/a.JPEG", 0); ("n01443537/b.JPEG", 1)] |}.

(** * Properties *)

(** ** Slices *)

Lemma len_nonneg {A} (l : list A) : 0 <= len l.
Proof. unfold len. lia. Qed.

Lemma len_app {A} (l k : list A) : len (l ++ k) = len l + len k.
Proof. unfold len. rewrite length_app. lia. Qed.

Lemma len_map {A B} (f : A -> B) (l : list A) : len (map f l) = len l.
Proof. unfold len. by rewrite length_map. Qed.

Lemma slice_bound_in_range n i : 0 <= i <= n -> slice_bound n i = i.
Proof.
  intros Hi. unfold slice_bound.
  destruct (Z.ltb_spec i 0); lia.
Qed.

(** Inside the list, [l[lo:hi]] is [hi - lo] elements after the first [lo]. *)
Lemma py_slice_in_range {A} (l : list A) lo hi :
  0 <= lo <= hi -> hi <= len l ->
  py_slice l lo hi = take (Z.to_nat (hi - lo)) (drop (Z.to_nat lo) l).
Proof.
  intros Hlo Hhi. unfold py_slice.
  rewrite !slice_bound_in_range by lia. done.
Qed.

Lemma len_py_slice_in_range {A} (l : list A) lo hi :
  0 <= lo <= hi -> hi <= len l -> len (py_slice l lo hi) = hi - lo.
Proof.
  intros Hlo Hhi. rewrite py_slice_in_range by done.
  unfold len in *. rewrite length_take, length_drop. lia.
Qed.

(** A positive bound: [l[:k]] is the first [k] elements, all of them when
    [k] exceeds the length. *)
Lemma py_slice_to_pos {A} (l : list A) k :
  0 <= k -> py_slice_to l k = take (Z.to_nat k) l.
Proof.
  intros Hk. unfold py_slice_to, slice_bound.
  destruct (Z.ltb_spec k 0); [lia|].
  destruct (Z.le_gt_cases k (len l)).
  - by rewrite Z.min_l, Z.max_r by lia.
  - rewrite Z.min_r, Z.max_r by (pose proof (len_nonneg l); lia).
    unfold len in *. rewrite Nat2Z.id.
    rewrite !take_ge; [done | lia | lia].
Qed.

(** ** One pass of [__iter__] *)

Lemma random_choice_elem {A} (r : nat) (seq : list A) x :
  random_choice r seq = Return x -> x ∈ seq.
Proof.
  unfold random_choice. destruct (seq !! _) eqn:E; [|done].
  intros [= <-]. by eapply list_elem_of_lookup_2.
Qed.

Lemma random_choice_nonempty {A} (r : nat) (seq : list A) :
  seq <> [] -> exists x, random_choice r seq = Return x.
Proof.
  intros Hne. unfold random_choice.
  destruct (seq !! _) eqn:E; [by eexists|].
  apply lookup_ge_None in E.
  destruct seq as [|a seq]; [done|].
  assert (Hlt : (r mod length (a :: seq) < length (a :: seq))%nat)
    by (apply Nat.mod_upper_bound; done).
  lia.
Qed.

(** The list [batch_ids] holds when the loop body reaches its [yield]. *)
Lemma body_batch_ids (idx : list Z) start h w b :
  0 <= start < len idx -> 1 <= b ->
  let end_index := Z.min (start + b) (len idx) in
  let batch_ids := py_slice idx start end_index in
  let batch_ids' :=
    if negb (len batch_ids =? b)
    then batch_ids ++ py_slice_to idx (b - len batch_ids)
    else batch_ids in
  batch_ids' = slice_of idx (start, (h, w, b)) ++ padding_of idx (start, (h, w, b))
  /\ 0 < len batch_ids'.
Proof.
  intros Hs Hb end_index batch_ids batch_ids'.
  assert (Hlen : len batch_ids = end_index - start).
  { apply len_py_slice_in_range; subst end_index; lia. }
  assert (Hslice : batch_ids = slice_of idx (start, (h, w, b))).
  { unfold slice_of. cbn [slice_end fst]. fold end_index.
    apply py_slice_in_range; subst end_index; lia. }
  assert (Heq : batch_ids' = slice_of idx (start, (h, w, b)) ++ padding_of idx (start, (h, w, b))).
  { subst batch_ids'. rewrite Hlen. unfold padding_of. cbn [slice_end].
    fold end_index. destruct (Z.eqb_spec (end_index - start) b) as [E|E]; cbn [negb].
    - rewrite E, Z.sub_diag. cbn. by rewrite take_0, app_nil_r.
    - rewrite py_slice_to_pos by (subst end_index; lia). by rewrite Hslice. }
  split; [done|].
  rewrite Heq, len_app, <- Hslice, Hlen.
  pose proof (len_nonneg (padding_of idx (start, (h, w, b)))).
  subst end_index. lia.
Qed.

(** The two classes run the same loop. *)
Lemma while_loop_ddp rnd tuples idx fuel :
  forall draws start,
    VariableBatchSamplerDDP.while_loop rnd tuples idx fuel draws start
    = VariableBatchSampler.while_loop rnd tuples idx fuel draws start.
Proof.
  induction fuel as [|fuel IH]; intros draws start; [done|].
  cbn [VariableBatchSamplerDDP.while_loop VariableBatchSampler.while_loop].
  destruct (start <? len idx); [|done].
  destruct (random_choice (rnd draws) tuples) as [[[crop_h crop_w] batch_size]|e]; [|done].
  by rewrite IH.
Qed.

(** Past the end of the index list the loop yields nothing more. *)
Lemma while_loop_past_end rnd tuples idx fuel draws start :
  len idx <= start ->
  (VariableBatchSampler.while_loop rnd tuples idx fuel draws start).1 = [].
Proof.
  intros Hge. destruct fuel as [|fuel]; [done|].
  cbn [VariableBatchSampler.while_loop].
  destruct (Z.ltb_spec start (len idx)); [lia|done].
Qed.

Lemma slice_then_rest (idx : list Z) start b :
  0 <= start < len idx -> 1 <= b ->
  take (Z.to_nat (Z.min (start + b) (len idx) - start)) (drop (Z.to_nat start) idx)
    ++ drop (Z.to_nat (start + b)) idx
  = drop (Z.to_nat start) idx.
Proof.
  intros Hs Hb.
  destruct (Z.le_gt_cases (start + b) (len idx)) as [Hle|Hgt].
  - rewrite Z.min_l by done.
    replace (Z.to_nat (start + b)) with (Z.to_nat start + Z.to_nat (start + b - start))%nat by lia.
    rewrite <- drop_drop. apply take_drop.
  - rewrite Z.min_r by lia. unfold len in *.
    rewrite (drop_ge idx (Z.to_nat (start + b))) by lia.
    rewrite app_nil_r. apply take_ge. rewrite length_drop. lia.
Qed.

(** The pass the loop makes from [start], for positive batch sizes. *)
Lemma while_loop_pass rnd tuples idx :
  positive_batch_sizes tuples ->
  forall fuel draws start, 0 <= start ->
    let run := VariableBatchSampler.while_loop rnd tuples idx fuel draws start in
    exists its : list iteration,
      run.1 = map (yielded idx) its
      /\ Forall (fun it => it.2 ∈ tuples /\ 0 <= it.1 < len idx) its
      /\ chained (len idx) start its
      /\ (run.2 = Finished ->
          concat (map (slice_of idx) its) = drop (Z.to_nat start) idx)
      /\ (tuples <> [] -> Z.max 0 (len idx - start) < Z.of_nat fuel ->
          run.2 = Finished).
Proof.
  intros Hpos. induction fuel as [|fuel IH]; intros draws start Hstart run.
  { exists []. subst run. cbn. repeat split; [constructor|done|lia]. }
  subst run. cbn [VariableBatchSampler.while_loop].
  destruct (Z.ltb_spec start (len idx)) as [Hlt|Hge].
  2:{ exists []. cbn. repeat split; [constructor|].
      intros _. unfold len in *. symmetry. apply drop_ge. lia. }
  destruct (random_choice (rnd draws) tuples) as [[[h w] b]|e] eqn:Hch.
  2:{ exists []. cbn. repeat split; [constructor|done|].
      intros Hne _. destruct (random_choice_nonempty (rnd draws) tuples Hne) as [x Hx].
      congruence. }
  pose proof (random_choice_elem _ _ _ Hch) as Hin.
  pose proof (Hpos _ _ _ Hin) as Hb.
  destruct (body_batch_ids idx start h w b ltac:(lia) Hb) as [Hids Hnonempty].
  cbv zeta in Hids, Hnonempty. rewrite Hids in *. clear Hids.
  destruct (IH (S draws) (start + b) ltac:(lia)) as (its & Hys & Hall & Hchain & Hfin & Hterm).
  pose proof (while_loop_past_end rnd tuples idx fuel (S draws) (start + b)) as Hpast.
  destruct (VariableBatchSampler.while_loop rnd tuples idx fuel (S draws) (start + b))
    as [rest e]. cbn [fst snd] in *.
  destruct (Z.ltb_spec 0 (len (slice_of idx (start, (h, w, b)) ++ padding_of idx (start, (h, w, b)))));
    [|lia].
  exists ((start, (h, w, b)) :: its). cbn [fst snd map concat chained slice_end].
  split; [by rewrite Hys|].
  split; [constructor; [cbn; split; [done|lia]|done]|].
  split.
  { split; [done|].
    destruct (Z.le_gt_cases (start + b) (len idx)) as [Hle|Hgt].
    - by rewrite Z.min_l.
    - rewrite Hpast in Hys by lia. symmetry in Hys. apply map_eq_nil in Hys.
      by subst its. }
  split.
  { intros He. rewrite (Hfin He). unfold slice_of. cbn [slice_end fst].
    apply slice_then_rest; lia. }
  intros Hne Hfuel. apply Hterm; [done|lia].
Qed.


Lemma batch_sizes_within_spec lo hi tuples :
  batch_sizes_within lo hi tuples = true ->
  forall h w b, (h, w, b) ∈ tuples -> lo <= b <= hi.
Proof.
  unfold batch_sizes_within. rewrite forallb_forall.
  intros Hall h w b Hin. apply list_elem_of_In in Hin.
  specialize (Hall _ Hin). cbn in Hall. lia.
Qed.

Lemma positive_batch_sizes_check tuples hi :
  batch_sizes_within 1 hi tuples = true -> positive_batch_sizes tuples.
Proof.
  intros Hall h w b Hin.
  destruct (batch_sizes_within_spec _ _ _ Hall h w b Hin). done.
Qed.

(** Whatever the batch sizes, a yielded batch carries the crop size of one
    scale tuple in all its elements. *)
Lemma while_loop_crop_sizes rnd tuples idx fuel :
  forall draws start,
    Forall (fun b : batch =>
              exists crop_h crop_w batch_size,
                (crop_h, crop_w, batch_size) ∈ tuples
                /\ Forall (fun x => x.1 = (crop_h, crop_w)) b)
           (VariableBatchSampler.while_loop rnd tuples idx fuel draws start).1.
Proof.
  induction fuel as [|fuel IH]; intros draws start; [constructor|].
  cbn [VariableBatchSampler.while_loop].
  destruct (start <? len idx); [|constructor].
  destruct (random_choice (rnd draws) tuples) as [[[h w] b]|e] eqn:Hch; [|constructor].
  specialize (IH (S draws) (start + b)).
  destruct (VariableBatchSampler.while_loop rnd tuples idx fuel (S draws) (start + b))
    as [rest e].
  destruct (0 <? len _); [|done].
  constructor; [|done].
  exists h, w, b. split; [by eapply random_choice_elem|].
  apply Forall_forall. intros x Hx. apply list_elem_of_fmap in Hx as (i & -> & _). done.
Qed.

(** With at least [batch_size] indices in the list, slice and padding
    together have [batch_size] elements. *)
Lemma len_yielded (idx : list Z) s h w b :
  0 <= s < len idx -> 1 <= b <= len idx ->
  len (yielded idx (s, (h, w, b))) = b.
Proof.
  intros Hs Hb. unfold yielded, slice_of, padding_of. cbn [slice_end fst].
  rewrite len_map, len_app. unfold len in *.
  rewrite !length_take, length_drop. lia.
Qed.

(** When fewer than [batch_size] indices remain, the batch is the rest of
    the list followed by its first elements. *)
Lemma yielded_wraps (idx : list Z) s h w b :
  0 <= s < len idx -> len idx - s < b ->
  yielded idx (s, (h, w, b))
  = map (fun b_id => (h, w, b_id))
        (drop (Z.to_nat s) idx ++ take (Z.to_nat (b - (len idx - s))) idx).
Proof.
  intros Hs Hb. unfold yielded, slice_of, padding_of. cbn [slice_end fst].
  rewrite Z.min_r by lia. f_equal. f_equal.
  apply take_ge. unfold len in *. rewrite length_drop. lia.
Qed.

(** When [batch_size] indices remain there is no padding: the batch is the
    slice alone. *)
Lemma padding_of_full (idx : list Z) s h w b :
  s + b <= len idx -> padding_of idx (s, (h, w, b)) = [].
Proof.
  intros Hb. unfold padding_of. cbn [slice_end].
  rewrite Z.min_l by lia.
  replace (b - (s + b - s)) with 0 by lia. apply take_0.
Qed.
(** ** [update_scales] *)

Section UpdateScales.

Variable _image_batch_pairs : image_batch_pairs_t.

(** C3. Frame property of the epoch-triggered update: at an epoch that is
    not in [scale_ep_intervals], or with [scale_inc] off, [update_scales]
    leaves every attribute of the sampler as it was, in both classes. *)
Theorem update_scales_frame (epoch : Z) (is_master_node : bool) :
  (forall self : VariableBatchSampler.t,
      ~ (epoch ∈ VariableBatchSampler.scale_ep_intervals self
         /\ VariableBatchSampler.scale_inc self = true) ->
      (VariableBatchSampler.update_scales _image_batch_pairs epoch is_master_node self).1.2 = self)
  /\ (forall self : VariableBatchSamplerDDP.t,
      ~ (py_in epoch (VariableBatchSamplerDDP.scale_ep_intervals self) = Return true
         /\ VariableBatchSamplerDDP.scale_inc self = true) ->
      (VariableBatchSamplerDDP.update_scales _image_batch_pairs epoch is_master_node self).1.2 = self).
Proof.
  split; intros self Hoff; run_method.
  - destruct (bool_decide_reflect (epoch ∈ VariableBatchSampler.scale_ep_intervals self)) as [Hin|Hout];
      destruct (VariableBatchSampler.scale_inc self) eqn:Hinc; cbn; try done.
    exfalso. by apply Hoff.
  - destruct (py_in epoch (VariableBatchSamplerDDP.scale_ep_intervals self)) as [[|]|e] eqn:Hin;
      destruct (VariableBatchSamplerDDP.scale_inc self) eqn:Hinc; cbn; try done.
    exfalso. by apply Hoff.
Qed.

(** C4. When the update fires, each crop bound [b] becomes
    [b + int(b * f)], with [f] the minimum factor for the two minimum bounds
    and the maximum factor for the two maximum bounds, and
    [img_batch_tuples] is [_image_batch_pairs] of the new bounds and of the
    unchanged [crop_size_h], [crop_size_w] and [batch_size_gpu0]; the call
    returns normally whenever the four [int(b * f)] have a value. *)
Theorem update_scales_rule (epoch : Z) (is_master_node : bool) :
    (forall (self : VariableBatchSampler.t) dmin_w dmax_w dmin_h dmax_h,
        epoch ∈ VariableBatchSampler.scale_ep_intervals self ->
        VariableBatchSampler.scale_inc self = true ->
        PyFloat.int_mul (VariableBatchSampler.min_crop_size_w self) (VariableBatchSampler.min_scale_inc_factor self) = Return dmin_w ->
        PyFloat.int_mul (VariableBatchSampler.max_crop_size_w self) (VariableBatchSampler.max_scale_inc_factor self) = Return dmax_w ->
        PyFloat.int_mul (VariableBatchSampler.min_crop_size_h self) (VariableBatchSampler.min_scale_inc_factor self) = Return dmin_h ->
        PyFloat.int_mul (VariableBatchSampler.max_crop_size_h self) (VariableBatchSampler.max_scale_inc_factor self) = Return dmax_h ->
        let run := VariableBatchSampler.update_scales _image_batch_pairs epoch is_master_node self in
        let self' := run.1.2 in
        run.1.1 = Return tt
        /\ VariableBatchSampler.min_crop_size_w self' = VariableBatchSampler.min_crop_size_w self + dmin_w
        /\ VariableBatchSampler.max_crop_size_w self' = VariableBatchSampler.max_crop_size_w self + dmax_w
        /\ VariableBatchSampler.min_crop_size_h self' = VariableBatchSampler.min_crop_size_h self + dmin_h
        /\ VariableBatchSampler.max_crop_size_h self' = VariableBatchSampler.max_crop_size_h self + dmax_h
        /\ VariableBatchSampler.img_batch_tuples self' =
             _image_batch_pairs (VariableBatchSampler.crop_size_h self) (VariableBatchSampler.crop_size_w self)
               (VariableBatchSampler.batch_size_gpu0 self) (VariableBatchSampler.n_gpus self)
               (VariableBatchSampler.max_img_scales self) (VariableBatchSampler.check_scale_div_factor self)
               (VariableBatchSampler.min_crop_size_w self') (VariableBatchSampler.max_crop_size_w self')
               (VariableBatchSampler.min_crop_size_h self') (VariableBatchSampler.max_crop_size_h self')
        /\ VariableBatchSampler.crop_size_h self' = VariableBatchSampler.crop_size_h self
        /\ VariableBatchSampler.crop_size_w self' = VariableBatchSampler.crop_size_w self
        /\ VariableBatchSampler.batch_size_gpu0 self' = VariableBatchSampler.batch_size_gpu0 self)
    /\
    (forall (self : VariableBatchSamplerDDP.t) dmin_w dmax_w dmin_h dmax_h,
        py_in epoch (VariableBatchSamplerDDP.scale_ep_intervals self) = Return true ->
        VariableBatchSamplerDDP.scale_inc self = true ->
        PyFloat.int_mul (VariableBatchSamplerDDP.min_crop_size_w self) (VariableBatchSamplerDDP.min_scale_inc_factor self) = Return dmin_w ->
        PyFloat.int_mul (VariableBatchSamplerDDP.max_crop_size_w self) (VariableBatchSamplerDDP.max_scale_inc_factor self) = Return dmax_w ->
        PyFloat.int_mul (VariableBatchSamplerDDP.min_crop_size_h self) (VariableBatchSamplerDDP.min_scale_inc_factor self) = Return dmin_h ->
        PyFloat.int_mul (VariableBatchSamplerDDP.max_crop_size_h self) (VariableBatchSamplerDDP.max_scale_inc_factor self) = Return dmax_h ->
        let run := VariableBatchSamplerDDP.update_scales _image_batch_pairs epoch is_master_node self in
        let self' := run.1.2 in
        run.1.1 = Return tt
        /\ VariableBatchSamplerDDP.min_crop_size_w self' = VariableBatchSamplerDDP.min_crop_size_w self + dmin_w
        /\ VariableBatchSamplerDDP.max_crop_size_w self' = VariableBatchSamplerDDP.max_crop_size_w self + dmax_w
        /\ VariableBatchSamplerDDP.min_crop_size_h self' = VariableBatchSamplerDDP.min_crop_size_h self + dmin_h
        /\ VariableBatchSamplerDDP.max_crop_size_h self' = VariableBatchSamplerDDP.max_crop_size_h self + dmax_h
        /\ VariableBatchSamplerDDP.img_batch_tuples self' =
             _image_batch_pairs (VariableBatchSamplerDDP.crop_size_h self) (VariableBatchSamplerDDP.crop_size_w self)
               (VariableBatchSamplerDDP.batch_size_gpu0 self) (VariableBatchSamplerDDP.num_replicas self)
               (VariableBatchSamplerDDP.max_img_scales self) (VariableBatchSamplerDDP.check_scale_div_factor self)
               (VariableBatchSamplerDDP.min_crop_size_w self') (VariableBatchSamplerDDP.max_crop_size_w self')
               (VariableBatchSamplerDDP.min_crop_size_h self') (VariableBatchSamplerDDP.max_crop_size_h self')
        /\ VariableBatchSamplerDDP.crop_size_h self' = VariableBatchSamplerDDP.crop_size_h self
        /\ VariableBatchSamplerDDP.crop_size_w self' = VariableBatchSamplerDDP.crop_size_w self
        /\ VariableBatchSamplerDDP.batch_size_gpu0 self' = VariableBatchSamplerDDP.batch_size_gpu0 self).
Proof.
  split; intros self dmin_w dmax_w dmin_h dmax_h Hin Hinc Hminw Hmaxw Hminh Hmaxh;
    run_method.
  - rewrite (bool_decide_eq_true_2 _ Hin), Hinc. cbn.
    rewrite Hminw. cbn. rewrite Hmaxw. cbn. rewrite Hminh. cbn. rewrite Hmaxh. cbn.
    destruct is_master_node; cbn; repeat split; done.
  - rewrite Hin, Hinc. cbn.
    rewrite Hminw. cbn. rewrite Hmaxw. cbn. rewrite Hminh. cbn. rewrite Hmaxh. cbn.
    destruct is_master_node; cbn; repeat split; done.
Qed.

(** [update_scales] of the distributed class, run from the same state, ends
    in the same outcome and the same state. *)
Lemma update_scales_as_ddp (epoch : Z) (is_master_node : bool)
    (self : VariableBatchSampler.t) :
  let run := VariableBatchSampler.update_scales _image_batch_pairs epoch is_master_node self in
  let run' := VariableBatchSamplerDDP.update_scales _image_batch_pairs epoch is_master_node (as_ddp self) in
  run'.1.1 = run.1.1 /\ run'.1.2 = as_ddp run.1.2.
Proof.
  destruct self as [b0 ng minw maxw minh maxh cw ch fmin fmax eps ms cs inc tuples].
  run_method. unfold py_in, as_ddp. cbn.
  destruct (bool_decide (epoch ∈ eps)), inc; cbn; [|done..].
  destruct (PyFloat.int_mul minw fmin); cbn; [|done].
  destruct (PyFloat.int_mul maxw fmax); cbn; [|done].
  destruct (PyFloat.int_mul minh fmin); cbn; [|done].
  destruct (PyFloat.int_mul maxh fmax); cbn; [|done].
  destruct is_master_node; done.
Qed.

(** C9. The two classes implement one algorithm: with the same scale tuples,
    index list and random draws their [__iter__] yield the same batches and
    end the same way, and from the same state and epoch their
    [update_scales] end in the same outcome with the same four crop bounds
    and the same [img_batch_tuples]. *)
Theorem samplers_agree :
  (forall (self : VariableBatchSampler.t) (self' : VariableBatchSamplerDDP.t)
          (indices : list Z) (rnd : nat -> nat) (fuel : nat),
      VariableBatchSamplerDDP.img_batch_tuples self' = VariableBatchSampler.img_batch_tuples self ->
      VariableBatchSamplerDDP.__iter__ self' indices rnd fuel
      = VariableBatchSampler.__iter__ self indices rnd fuel)
  /\ (forall (self : VariableBatchSampler.t) (epoch : Z) (is_master_node : bool),
      let run := VariableBatchSampler.update_scales _image_batch_pairs epoch is_master_node self in
      let run' := VariableBatchSamplerDDP.update_scales _image_batch_pairs epoch is_master_node (as_ddp self) in
      run'.1.1 = run.1.1
      /\ VariableBatchSamplerDDP.min_crop_size_w run'.1.2 = VariableBatchSampler.min_crop_size_w run.1.2
      /\ VariableBatchSamplerDDP.max_crop_size_w run'.1.2 = VariableBatchSampler.max_crop_size_w run.1.2
      /\ VariableBatchSamplerDDP.min_crop_size_h run'.1.2 = VariableBatchSampler.min_crop_size_h run.1.2
      /\ VariableBatchSamplerDDP.max_crop_size_h run'.1.2 = VariableBatchSampler.max_crop_size_h run.1.2
      /\ VariableBatchSamplerDDP.img_batch_tuples run'.1.2 = VariableBatchSampler.img_batch_tuples run.1.2
      /\ run'.1.2 = as_ddp run.1.2).
Proof.
  split.
  - intros self self' indices rnd fuel Htuples.
    unfold VariableBatchSamplerDDP.__iter__, VariableBatchSampler.__iter__.
    rewrite Htuples. apply while_loop_ddp.
  - intros self epoch is_master_node run run'.
    destruct (update_scales_as_ddp epoch is_master_node self) as [Hout Hst].
    fold run run' in Hout, Hst. rewrite Hst. by repeat split.
Qed.

End UpdateScales.

(** ** [__iter__] *)

Lemma slice_of_nonempty (idx : list Z) s h w b :
  0 <= s < len idx -> 1 <= b -> slice_of idx (s, (h, w, b)) <> [].
Proof.
  intros Hs Hb Hnil. apply (f_equal length) in Hnil.
  unfold slice_of in Hnil. cbn [slice_end fst length] in Hnil.
  rewrite length_take, length_drop in Hnil. unfold len in *. lia.
Qed.

(** C5. The stages of a pass, for positive batch sizes: each yielded batch
    comes from one tuple [(crop_h, crop_w, batch_size)] of
    [img_batch_tuples], all its elements carry that [crop_h] and [crop_w],
    and its sample indices are the contiguous slice of the index list that
    starts where the slice of the batch before it ended (at 0 for the first
    batch); padding follows the slice only in a batch for which fewer than
    [batch_size] indices remain. *)
Theorem iter_stages (tuples : list scale_tuple) (indices : list Z)
    (rnd : nat -> nat) (fuel : nat) :
  positive_batch_sizes tuples ->
  (forall self : VariableBatchSampler.t,
      VariableBatchSampler.img_batch_tuples self = tuples ->
      exists its : list iteration,
        (VariableBatchSampler.__iter__ self indices rnd fuel).1 = map (yielded indices) its
        /\ Forall (fun '(s, (h, w, b)) =>
                     (h, w, b) ∈ tuples
                     /\ 0 <= s < len indices
                     /\ slice_of indices (s, (h, w, b)) <> []
                     /\ (s + b <= len indices ->
                         padding_of indices (s, (h, w, b)) = [])) its
        /\ chained (len indices) 0 its)
  /\ (forall self : VariableBatchSamplerDDP.t,
      VariableBatchSamplerDDP.img_batch_tuples self = tuples ->
      exists its : list iteration,
        (VariableBatchSamplerDDP.__iter__ self indices rnd fuel).1 = map (yielded indices) its
        /\ Forall (fun '(s, (h, w, b)) =>
                     (h, w, b) ∈ tuples
                     /\ 0 <= s < len indices
                     /\ slice_of indices (s, (h, w, b)) <> []
                     /\ (s + b <= len indices ->
                         padding_of indices (s, (h, w, b)) = [])) its
        /\ chained (len indices) 0 its).
Proof.
  intros Hpos.
  destruct (while_loop_pass rnd tuples indices Hpos fuel 0%nat 0 ltac:(lia))
    as (its & Hys & Hall & Hchain & _).
  assert (Hall' : Forall (fun '(s, (h, w, b)) =>
                     (h, w, b) ∈ tuples
                     /\ 0 <= s < len indices
                     /\ slice_of indices (s, (h, w, b)) <> []
                     /\ (s + b <= len indices ->
                         padding_of indices (s, (h, w, b)) = [])) its).
  { eapply Forall_impl; [exact Hall|].
    intros [s [[h w] b]] [Hin Hs]. cbn [fst snd] in *.
    split; [done|]. split; [done|]. split.
    - apply slice_of_nonempty; [done|]. by eapply Hpos.
    - apply padding_of_full. }
  split; intros self Htuples; exists its.
  - unfold VariableBatchSampler.__iter__. rewrite Htuples. done.
  - unfold VariableBatchSamplerDDP.__iter__. rewrite Htuples, while_loop_ddp. done.
Qed.

(** C7. On a non-empty index list at least as long as every batch size,
    with positive batch sizes, each yielded batch has exactly the
    [batch_size] elements of the tuple drawn for it; when fewer than
    [batch_size] indices remain, it is the rest of the list followed by
    indices from the front of the list. *)
Theorem iter_batch_length (tuples : list scale_tuple) (indices : list Z)
    (rnd : nat -> nat) (fuel : nat) :
  indices <> [] ->
  (forall h w b, (h, w, b) ∈ tuples -> 1 <= b <= len indices) ->
  (forall self : VariableBatchSampler.t,
      VariableBatchSampler.img_batch_tuples self = tuples ->
      exists its : list iteration,
        (VariableBatchSampler.__iter__ self indices rnd fuel).1 = map (yielded indices) its
        /\ Forall (fun '(s, (h, w, b)) =>
             (h, w, b) ∈ tuples
             /\ len (yielded indices (s, (h, w, b))) = b
             /\ (len indices - s < b ->
                 yielded indices (s, (h, w, b))
                 = map (fun b_id => (h, w, b_id))
                       (drop (Z.to_nat s) indices
                        ++ take (Z.to_nat (b - (len indices - s))) indices))) its)
  /\ (forall self : VariableBatchSamplerDDP.t,
      VariableBatchSamplerDDP.img_batch_tuples self = tuples ->
      exists its : list iteration,
        (VariableBatchSamplerDDP.__iter__ self indices rnd fuel).1 = map (yielded indices) its
        /\ Forall (fun '(s, (h, w, b)) =>
             (h, w, b) ∈ tuples
             /\ len (yielded indices (s, (h, w, b))) = b
             /\ (len indices - s < b ->
                 yielded indices (s, (h, w, b))
                 = map (fun b_id => (h, w, b_id))
                       (drop (Z.to_nat s) indices
                        ++ take (Z.to_nat (b - (len indices - s))) indices))) its).
Proof.
  intros _ Hsize.
  assert (Hpos : positive_batch_sizes tuples).
  { intros h w b Hin. destruct (Hsize h w b Hin). lia. }
  destruct (while_loop_pass rnd tuples indices Hpos fuel 0%nat 0 ltac:(lia))
    as (its & Hys & Hall & _).
  assert (Hall' : Forall (fun '(s, (h, w, b)) =>
             (h, w, b) ∈ tuples
             /\ len (yielded indices (s, (h, w, b))) = b
             /\ (len indices - s < b ->
                 yielded indices (s, (h, w, b))
                 = map (fun b_id => (h, w, b_id))
                       (drop (Z.to_nat s) indices
                        ++ take (Z.to_nat (b - (len indices - s))) indices))) its).
  { eapply Forall_impl; [exact Hall|].
    intros [s [[h w] b]] [Hin Hs]. cbn [fst snd] in *.
    split; [done|]. split.
    - apply len_yielded; [done|]. by eapply Hsize.
    - intros Hfew. by apply yielded_wraps. }
  split; intros self Htuples; exists its.
  - unfold VariableBatchSampler.__iter__. rewrite Htuples. done.
  - unfold VariableBatchSamplerDDP.__iter__. rewrite Htuples, while_loop_ddp. done.
Qed.

(** C8. A full pass over a non-empty index list, for positive batch sizes:
    the loop comes to its end within [len(img_indices) + 1] tests of its
    condition, the slices of the yielded batches put end to end are the
    whole index list, none of them is empty, so that every iteration yields
    its batch, and every index of the list is in a yielded batch. *)
Theorem iter_covers (self : VariableBatchSampler.t) (indices : list Z)
    (rnd : nat -> nat) :
  indices <> [] ->
  positive_batch_sizes (VariableBatchSampler.img_batch_tuples self) ->
  (VariableBatchSampler.img_batch_tuples self <> [] ->
   (VariableBatchSampler.__iter__ self indices rnd (S (length indices))).2 = Finished)
  /\ (forall fuel : nat,
      (VariableBatchSampler.__iter__ self indices rnd fuel).2 = Finished ->
      (exists its : list iteration,
          (VariableBatchSampler.__iter__ self indices rnd fuel).1 = map (yielded indices) its
          /\ concat (map (slice_of indices) its) = indices
          /\ Forall (fun it => slice_of indices it <> []) its)
      /\ (forall i, i ∈ indices ->
          exists (b : batch) crop_h crop_w,
            b ∈ (VariableBatchSampler.__iter__ self indices rnd fuel).1
            /\ (crop_h, crop_w, i) ∈ b)).
Proof.
  intros _ Hpos. split.
  - intros Hne.
    destruct (while_loop_pass rnd _ indices Hpos (S (length indices)) 0%nat 0 ltac:(lia))
      as (its & _ & _ & _ & _ & Hterm).
    apply Hterm; [done|]. unfold len. lia.
  - intros fuel Hfin.
    destruct (while_loop_pass rnd _ indices Hpos fuel 0%nat 0 ltac:(lia))
      as (its & Hys & Hall & _ & Hcover & _).
    unfold VariableBatchSampler.__iter__ in *.
    specialize (Hcover Hfin). change (drop (Z.to_nat 0) indices) with indices in Hcover.
    assert (Hnonempty : Forall (fun it => slice_of indices it <> []) its).
    { eapply Forall_impl; [exact Hall|].
      intros [s [[h w] b]] [Hin Hs]. cbn [fst snd] in *.
      apply slice_of_nonempty; [done|]. by eapply Hpos. }
    split; [by exists its|].
    intros i Hi. rewrite <- Hcover in Hi.
    apply list_elem_of_In, in_concat in Hi as (sl & Hsl & Hisl).
    apply list_elem_of_In in Hsl, Hisl.
    apply list_elem_of_fmap in Hsl as (it & -> & Hit).
    destruct it as [s [[h w] b]].
    exists (yielded indices (s, (h, w, b))), h, w. split.
    + rewrite Hys. apply list_elem_of_fmap. by exists (s, (h, w, b)).
    + unfold yielded. apply list_elem_of_fmap. exists i. split; [done|].
      apply elem_of_app. by left.
Qed.

(** ** [__init__] *)

(** With a single scale tuple, every batch carries its crop size and, when
    the index list is long enough, has its batch size. *)
Lemma single_tuple_batches rnd (idx : list Z) fuel crop_h crop_w batch_size :
  Forall (fun b : batch =>
            Forall (fun x => x.1 = (crop_h, crop_w)) b
            /\ (1 <= batch_size <= len idx -> len b = batch_size))
         (VariableBatchSampler.while_loop rnd [(crop_h, crop_w, batch_size)] idx fuel 0 0).1.
Proof.
  apply Forall_forall. intros b Hb. split.
  - pose proof (while_loop_crop_sizes rnd [(crop_h, crop_w, batch_size)] idx fuel 0 0) as Hall.
    rewrite Forall_forall in Hall.
    destruct (Hall b Hb) as (h & w & bs & Hin & Hcrop).
    apply list_elem_of_singleton in Hin as [= -> -> ->]. done.
  - intros Hsize.
    assert (Hpos : positive_batch_sizes [(crop_h, crop_w, batch_size)]).
    { intros h w bs Hin. apply list_elem_of_singleton in Hin as [= -> -> ->]. lia. }
    destruct (while_loop_pass rnd _ idx Hpos fuel 0%nat 0 ltac:(lia))
      as (its & Hys & Hall & _).
    rewrite Hys in Hb. apply list_elem_of_fmap in Hb as ([s [[h w] bs]] & -> & Hit).
    rewrite Forall_forall in Hall. destruct (Hall _ Hit) as [Hin Hs].
    cbn [fst snd] in *.
    apply list_elem_of_singleton in Hin as [= -> -> ->].
    by apply len_yielded.
Qed.

(** A call of [update_scales] that does not fire leaves the sampler as it
    was. *)
Lemma update_scales_off (_image_batch_pairs : image_batch_pairs_t)
    (epoch : Z) (is_master_node : bool) (self : VariableBatchSampler.t) :
  ~ (epoch ∈ VariableBatchSampler.scale_ep_intervals self
     /\ VariableBatchSampler.scale_inc self = true) ->
  (VariableBatchSampler.update_scales _image_batch_pairs epoch is_master_node self).1.2
  = self.
Proof.
  intros Hoff. run_method.
  destruct (bool_decide_reflect (epoch ∈ VariableBatchSampler.scale_ep_intervals self));
    destruct (VariableBatchSampler.scale_inc self); cbn; try done.
  exfalso. by apply Hoff.
Qed.

Lemma update_scales_off_ddp (_image_batch_pairs : image_batch_pairs_t)
    (epoch : Z) (is_master_node : bool) (self : VariableBatchSamplerDDP.t) :
  ~ (py_in epoch (VariableBatchSamplerDDP.scale_ep_intervals self) = Return true
     /\ VariableBatchSamplerDDP.scale_inc self = true) ->
  (VariableBatchSamplerDDP.update_scales _image_batch_pairs epoch is_master_node self).1.2
  = self.
Proof.
  intros Hoff. run_method.
  destruct (py_in epoch (VariableBatchSamplerDDP.scale_ep_intervals self)) as [[|]|e];
    destruct (VariableBatchSamplerDDP.scale_inc self); cbn; try done.
  exfalso. by apply Hoff.
Qed.

(** The scale tuples after a call of [update_scales] that fires. *)
Lemma update_scales_on (_image_batch_pairs : image_batch_pairs_t)
    (epoch : Z) (is_master_node : bool) (self : VariableBatchSampler.t)
    dmin_w dmax_w dmin_h dmax_h :
  epoch ∈ VariableBatchSampler.scale_ep_intervals self ->
  VariableBatchSampler.scale_inc self = true ->
  PyFloat.int_mul (VariableBatchSampler.min_crop_size_w self)
    (VariableBatchSampler.min_scale_inc_factor self) = Return dmin_w ->
  PyFloat.int_mul (VariableBatchSampler.max_crop_size_w self)
    (VariableBatchSampler.max_scale_inc_factor self) = Return dmax_w ->
  PyFloat.int_mul (VariableBatchSampler.min_crop_size_h self)
    (VariableBatchSampler.min_scale_inc_factor self) = Return dmin_h ->
  PyFloat.int_mul (VariableBatchSampler.max_crop_size_h self)
    (VariableBatchSampler.max_scale_inc_factor self) = Return dmax_h ->
  VariableBatchSampler.img_batch_tuples
    (VariableBatchSampler.update_scales _image_batch_pairs epoch is_master_node self).1.2
  = _image_batch_pairs
      (VariableBatchSampler.crop_size_h self) (VariableBatchSampler.crop_size_w self)
      (VariableBatchSampler.batch_size_gpu0 self) (VariableBatchSampler.n_gpus self)
      (VariableBatchSampler.max_img_scales self)
      (VariableBatchSampler.check_scale_div_factor self)
      (VariableBatchSampler.min_crop_size_w self + dmin_w)
      (VariableBatchSampler.max_crop_size_w self + dmax_w)
      (VariableBatchSampler.min_crop_size_h self + dmin_h)
      (VariableBatchSampler.max_crop_size_h self + dmax_h).
Proof.
  intros Hin Hinc Hminw Hmaxw Hminh Hmaxh.
  run_method. rewrite (bool_decide_eq_true_2 _ Hin), Hinc. cbn.
  rewrite Hminw. cbn. rewrite Hmaxw. cbn. rewrite Hminh. cbn. rewrite Hmaxh. cbn.
  by destruct is_master_node.
Qed.

Lemma update_scales_on_ddp (_image_batch_pairs : image_batch_pairs_t)
    (epoch : Z) (is_master_node : bool) (self : VariableBatchSamplerDDP.t)
    dmin_w dmax_w dmin_h dmax_h :
  py_in epoch (VariableBatchSamplerDDP.scale_ep_intervals self) = Return true ->
  VariableBatchSamplerDDP.scale_inc self = true ->
  PyFloat.int_mul (VariableBatchSamplerDDP.min_crop_size_w self)
    (VariableBatchSamplerDDP.min_scale_inc_factor self) = Return dmin_w ->
  PyFloat.int_mul (VariableBatchSamplerDDP.max_crop_size_w self)
    (VariableBatchSamplerDDP.max_scale_inc_factor self) = Return dmax_w ->
  PyFloat.int_mul (VariableBatchSamplerDDP.min_crop_size_h self)
    (VariableBatchSamplerDDP.min_scale_inc_factor self) = Return dmin_h ->
  PyFloat.int_mul (VariableBatchSamplerDDP.max_crop_size_h self)
    (VariableBatchSamplerDDP.max_scale_inc_factor self) = Return dmax_h ->
  VariableBatchSamplerDDP.img_batch_tuples
    (VariableBatchSamplerDDP.update_scales _image_batch_pairs epoch is_master_node self).1.2
  = _image_batch_pairs
      (VariableBatchSamplerDDP.crop_size_h self) (VariableBatchSamplerDDP.crop_size_w self)
      (VariableBatchSamplerDDP.batch_size_gpu0 self) (VariableBatchSamplerDDP.num_replicas self)
      (VariableBatchSamplerDDP.max_img_scales self)
      (VariableBatchSamplerDDP.check_scale_div_factor self)
      (VariableBatchSamplerDDP.min_crop_size_w self + dmin_w)
      (VariableBatchSamplerDDP.max_crop_size_w self + dmax_w)
      (VariableBatchSamplerDDP.min_crop_size_h self + dmin_h)
      (VariableBatchSamplerDDP.max_crop_size_h self + dmax_h).
Proof.
  intros Hin Hinc Hminw Hmaxw Hminh Hmaxh.
  run_method. rewrite Hin, Hinc. cbn.
  rewrite Hminw. cbn. rewrite Hmaxw. cbn. rewrite Hminh. cbn. rewrite Hmaxh. cbn.
  by destruct is_master_node.
Qed.

Section Init.

Variable _image_batch_pairs : image_batch_pairs_t.
Variables DEFAULT_IMAGE_WIDTH DEFAULT_IMAGE_HEIGHT : Z.

(** In training mode the scale tuples are those [_image_batch_pairs] gives
    for the base crop size, the base batch size and the crop bounds. *)
Lemma init_training_tuples b0 ng opts n_data_samples :
  let self := VariableBatchSampler.__init__ _image_batch_pairs
                DEFAULT_IMAGE_WIDTH DEFAULT_IMAGE_HEIGHT b0 ng opts n_data_samples true in
  VariableBatchSampler.img_batch_tuples self
  = _image_batch_pairs
      (VariableBatchSampler.crop_size_h self) (VariableBatchSampler.crop_size_w self)
      (VariableBatchSampler.batch_size_gpu0 self) (VariableBatchSampler.n_gpus self)
      (VariableBatchSampler.max_img_scales self)
      (VariableBatchSampler.check_scale_div_factor self)
      (VariableBatchSampler.min_crop_size_w self) (VariableBatchSampler.max_crop_size_w self)
      (VariableBatchSampler.min_crop_size_h self) (VariableBatchSampler.max_crop_size_h self).
Proof. done. Qed.

(** The sampler as [__init__] returns it outside training mode: a single
    scale tuple, and batches of the base crop size and batch size. *)
Lemma init_validation_single_scale (b0 n : Z) (opts : Opts) (n_data_samples : Z) :
  (let self := VariableBatchSampler.__init__ _image_batch_pairs
                 DEFAULT_IMAGE_WIDTH DEFAULT_IMAGE_HEIGHT b0 n opts n_data_samples false in
   let h := VariableBatchSampler.crop_size_h self in
   let w := VariableBatchSampler.crop_size_w self in
   VariableBatchSampler.batch_size_gpu0 self = b0
   /\ VariableBatchSampler.img_batch_tuples self = [(h, w, b0)]
   /\ forall (indices : list Z) (rnd : nat -> nat) (fuel : nat),
       Forall (fun b : batch =>
                 Forall (fun x => x.1 = (h, w)) b
                 /\ (1 <= b0 <= len indices -> len b = b0))
              (VariableBatchSampler.__iter__ self indices rnd fuel).1)
  /\ (let self := VariableBatchSamplerDDP.__init__ _image_batch_pairs
                    DEFAULT_IMAGE_WIDTH DEFAULT_IMAGE_HEIGHT b0 n opts n_data_samples false in
      let h := VariableBatchSamplerDDP.crop_size_h self in
      let w := VariableBatchSamplerDDP.crop_size_w self in
      VariableBatchSamplerDDP.batch_size_gpu0 self = b0
      /\ VariableBatchSamplerDDP.img_batch_tuples self = [(h, w, b0)]
      /\ forall (indices : list Z) (rnd : nat -> nat) (fuel : nat),
          Forall (fun b : batch =>
                    Forall (fun x => x.1 = (h, w)) b
                    /\ (1 <= b0 <= len indices -> len b = b0))
                 (VariableBatchSamplerDDP.__iter__ self indices rnd fuel).1).
Proof.
  split; intros self h w; (split; [done|]); (split; [done|]); intros indices rnd fuel.
  - unfold VariableBatchSampler.__iter__. apply single_tuple_batches.
  - unfold VariableBatchSamplerDDP.__iter__. rewrite while_loop_ddp.
    apply single_tuple_batches.
Qed.


End Init.

(** ** [ImagenetOpenCVDataset.__getitem__] *)

Ltac run_getitem :=
  unfold ImagenetOpenCVDataset.__getitem__, mbind, M_bind, mret, M_ret,
    get, lift, modify, logger_log;
  cbn beta iota.

(** Building the transform never writes the dataset. *)
Lemma transform_for_frame {Compose : Type}
    (tf_Compose : list ImagenetOpenCVTransforms.stage -> result Compose)
    (self : ImagenetOpenCVDataset.t) crop_h crop_w :
  (transform_for tf_Compose self crop_h crop_w self).1.2 = self.
Proof.
  unfold transform_for, ImagenetOpenCVDataset._training_transforms,
    ImagenetOpenCVDataset._validation_transforms,
    mbind, M_bind, mret, M_ret, get, lift, logger_warnings.
  destruct (ImagenetOpenCVDataset.is_training self); cbn beta iota.
  - destruct (ImagenetOpenCVTransforms._training_transforms _) as [stages|e]; [|done].
    by destruct (tf_Compose stages).
  - destruct (ImagenetOpenCVTransforms._validation_transforms _ _) as [[stages|e] ws];
      cbn; [|done].
    by destruct (tf_Compose stages).
Qed.

Section Dataset.

Variable Tensor : Type.
Variable read_image_opencv : string -> option ndarray.
Variable np_zeros : Z -> Z -> Z -> result ndarray.
Variable Compose : Type.
Variable tf_Compose : list ImagenetOpenCVTransforms.stage -> result Compose.
Variable compose_call :
  Compose -> gmap string (ImagenetOpenCVDataset.value Tensor)
  -> result (gmap string (ImagenetOpenCVDataset.value Tensor)).

(** The run of [__getitem__] on a sample whose file cannot be decoded, once
    the transform is built. *)
Lemma getitem_undecodable (self : ImagenetOpenCVDataset.t)
    crop_h crop_w img_index i img_path target transform_fn lines :
  py_index (ImagenetOpenCVDataset.samples self) img_index = Return i ->
  ImagenetOpenCVDataset.samples self !! i = Some (img_path, target) ->
  read_image_opencv img_path = None ->
  transform_for tf_Compose self crop_h crop_w self = (Return transform_fn, self, lines) ->
  ImagenetOpenCVDataset.__getitem__ Tensor read_image_opencv np_zeros
    Compose tf_Compose compose_call (crop_h, crop_w, img_index) self
  = (match np_zeros crop_h crop_w 3 with
     | Raise e => Raise e
     | Return blank =>
         match compose_call transform_fn {["image" := ImagenetOpenCVDataset.VArray blank]} with
         | Raise e => Raise e
         | Return out =>
             Return (<["sample_id" := ImagenetOpenCVDataset.VInt img_index]>
                       (<["label" := ImagenetOpenCVDataset.VInt target]> out))
         end
     end,
     ImagenetOpenCVDataset.set_samples
       (delete i (ImagenetOpenCVDataset.samples self)) self,
     lines ++ [PossiblyCorrupt img_index]).
Proof.
  intros Hidx Hsample Hread Hbuild. unfold transform_for in Hbuild.
  run_getitem. rewrite Hbuild. cbn beta iota.
  rewrite Hidx. cbn beta iota. rewrite Hsample. cbn.
  rewrite Hread. cbn. rewrite Hidx. cbn.
  destruct (np_zeros crop_h crop_w 3) as [blank|e]; cbn; [|by rewrite ?app_nil_r].
  destruct (compose_call transform_fn _) as [out|e]; cbn; by rewrite ?app_nil_r.
Qed.

(** C2, as the code has it.  For an index in range whose file cannot be
    decoded, once the transform of the call is built, [__getitem__] removes
    the sample at [img_index] from the sample list, so that [__len__] is one
    less, and goes on: when [np.zeros] returns its array and the transform
    returns on it, the call returns a data item, the transform of that
    array under the label of the removed sample and with [img_index] as its
    [sample_id]. *)
Theorem getitem_corrupt_image (self : ImagenetOpenCVDataset.t)
    crop_h crop_w img_index i img_path target transform_fn lines :
  py_index (ImagenetOpenCVDataset.samples self) img_index = Return i ->
  ImagenetOpenCVDataset.samples self !! i = Some (img_path, target) ->
  read_image_opencv img_path = None ->
  transform_for tf_Compose self crop_h crop_w self = (Return transform_fn, self, lines) ->
  let run := ImagenetOpenCVDataset.__getitem__ Tensor read_image_opencv np_zeros
               Compose tf_Compose compose_call (crop_h, crop_w, img_index) self in
  ImagenetOpenCVDataset.samples run.1.2 = delete i (ImagenetOpenCVDataset.samples self)
  /\ ImagenetOpenCVDataset.__len__ run.1.2 = ImagenetOpenCVDataset.__len__ self - 1
  /\ forall blank out,
       np_zeros crop_h crop_w 3 = Return blank ->
       compose_call transform_fn {["image" := ImagenetOpenCVDataset.VArray blank]}
       = Return out ->
       exists data,
         run.1.1 = Return data
         /\ data = <["sample_id" := ImagenetOpenCVDataset.VInt img_index]>
                     (<["label" := ImagenetOpenCVDataset.VInt target]> out)
         /\ data !! "label" = Some (ImagenetOpenCVDataset.VInt target)
         /\ data !! "sample_id" = Some (ImagenetOpenCVDataset.VInt img_index).
Proof.
  intros Hidx Hsample Hread Hbuild run.
  subst run. rewrite (getitem_undecodable _ _ _ _ _ _ _ _ _ Hidx Hsample Hread Hbuild).
  cbn [fst snd ImagenetOpenCVDataset.set_samples ImagenetOpenCVDataset.samples].
  split; [done|]. split.
  - unfold ImagenetOpenCVDataset.__len__, len. cbn.
    rewrite length_delete by (by eexists).
    apply lookup_lt_Some in Hsample. lia.
  - intros blank out Hzeros Hcall. rewrite Hzeros, Hcall.
    eexists. split; [done|]. split; [done|].
    split; [|by rewrite lookup_insert_eq].
    rewrite lookup_insert_ne by done. by rewrite lookup_insert_eq.
Qed.

End Dataset.

(** * Further properties of the samplers *)

(** ** [__iter__]: degenerate inputs *)

(** X1. Without indices a pass ends at once and yields nothing, whatever the
    scale tuples; with indices and no scale tuple, [random.choice] raises
    [IndexError] before anything is yielded.  Both classes. *)
Theorem iter_degenerate_inputs (rnd : nat -> nat) (fuel : nat) :
  (forall self : VariableBatchSampler.t,
      VariableBatchSampler.__iter__ self [] rnd (S fuel) = ([], Finished))
  /\ (forall self : VariableBatchSamplerDDP.t,
      VariableBatchSamplerDDP.__iter__ self [] rnd (S fuel) = ([], Finished))
  /\ (forall (self : VariableBatchSampler.t) (indices : list Z),
      indices <> [] ->
      VariableBatchSampler.img_batch_tuples self = [] ->
      VariableBatchSampler.__iter__ self indices rnd (S fuel) = ([], Raised IndexError))
  /\ (forall (self : VariableBatchSamplerDDP.t) (indices : list Z),
      indices <> [] ->
      VariableBatchSamplerDDP.img_batch_tuples self = [] ->
      VariableBatchSamplerDDP.__iter__ self indices rnd (S fuel) = ([], Raised IndexError)).
Proof.
  assert (Hraise : forall indices : list Z, indices <> [] ->
            VariableBatchSampler.while_loop rnd [] indices (S fuel) 0 0
            = ([], Raised IndexError)).
  { intros indices Hne. cbn [VariableBatchSampler.while_loop].
    destruct (Z.ltb_spec 0 (len indices)) as [_|Hle]; [done|].
    destruct indices; [done|]. unfold len in Hle. cbn in Hle. lia. }
  repeat split.
  - intros self indices Hne Htuples.
    unfold VariableBatchSampler.__iter__. rewrite Htuples. by apply Hraise.
  - intros self indices Hne Htuples.
    unfold VariableBatchSamplerDDP.__iter__. rewrite Htuples, while_loop_ddp. by apply Hraise.
Qed.

(** The loop makes no progress on a batch size of 0. *)
Lemma while_loop_zero_batch_size rnd tuples (idx : list Z) :
  tuples <> [] ->
  (forall h w b, (h, w, b) ∈ tuples -> b = 0) ->
  forall fuel draws start, 0 <= start < len idx ->
    VariableBatchSampler.while_loop rnd tuples idx fuel draws start = ([], Running).
Proof.
  intros Hne Hzero. induction fuel as [|fuel IH]; intros draws start Hs; [done|].
  cbn [VariableBatchSampler.while_loop].
  destruct (Z.ltb_spec start (len idx)); [|lia].
  destruct (random_choice_nonempty (rnd draws) tuples Hne) as [[[h w] b] Hch].
  rewrite Hch. pose proof (Hzero _ _ _ (random_choice_elem _ _ _ Hch)) as ->.
  rewrite Z.add_0_r, (Z.min_l start) by lia.
  rewrite IH by done.
  assert (Hempty : py_slice idx start start = []).
  { rewrite py_slice_in_range by lia. by rewrite Z.sub_diag. }
  rewrite Hempty. done.
Qed.

(** X2. When every scale tuple has batch size 0, a pass over a non-empty
    index list never ends and never yields: however many times the loop
    condition is tested, the loop is still running with no batch out.
    Both classes. *)
Theorem iter_zero_batch_size_hangs (tuples : list scale_tuple) (indices : list Z)
    (rnd : nat -> nat) (fuel : nat) :
  indices <> [] ->
  tuples <> [] ->
  (forall h w b, (h, w, b) ∈ tuples -> b = 0) ->
  (forall self : VariableBatchSampler.t,
      VariableBatchSampler.img_batch_tuples self = tuples ->
      VariableBatchSampler.__iter__ self indices rnd fuel = ([], Running))
  /\ (forall self : VariableBatchSamplerDDP.t,
      VariableBatchSamplerDDP.img_batch_tuples self = tuples ->
      VariableBatchSamplerDDP.__iter__ self indices rnd fuel = ([], Running)).
Proof.
  intros Hidx Hne Hzero.
  assert (Hrange : 0 <= 0 < len indices).
  { destruct indices; [done|]. unfold len. cbn. lia. }
  split; intros self Htuples.
  - unfold VariableBatchSampler.__iter__. rewrite Htuples.
    by apply while_loop_zero_batch_size.
  - unfold VariableBatchSamplerDDP.__iter__. rewrite Htuples, while_loop_ddp.
    by apply while_loop_zero_batch_size.
Qed.

(** ** [__iter__]: what a batch is made of *)

Lemma py_slice_subseteq {A} (l : list A) lo hi : py_slice l lo hi ⊆ l.
Proof.
  unfold py_slice. etrans; [apply subseteq_take|apply subseteq_drop].
Qed.

Lemma py_slice_to_subseteq {A} (l : list A) hi : py_slice_to l hi ⊆ l.
Proof. unfold py_slice_to. apply subseteq_take. Qed.

(** Whatever the batch sizes, a yielded batch is not empty, and each of its
    elements pairs the crop size of a scale tuple with an index of the
    list. *)
Lemma while_loop_elements rnd tuples (idx : list Z) fuel :
  forall draws start,
    Forall (fun b : batch =>
              b <> []
              /\ exists crop_h crop_w batch_size,
                   (crop_h, crop_w, batch_size) ∈ tuples
                   /\ forall x, x ∈ b -> x.1 = (crop_h, crop_w) /\ x.2 ∈ idx)
           (VariableBatchSampler.while_loop rnd tuples idx fuel draws start).1.
Proof.
  induction fuel as [|fuel IH]; intros draws start; [constructor|].
  cbn [VariableBatchSampler.while_loop].
  destruct (start <? len idx); [|constructor].
  destruct (random_choice (rnd draws) tuples) as [[[h w] b]|e] eqn:Hch; [|constructor].
  specialize (IH (S draws) (start + b)).
  destruct (VariableBatchSampler.while_loop rnd tuples idx fuel (S draws) (start + b))
    as [rest e].
  set (ids := if negb (len _ =? b) then _ else _).
  assert (Hsub : ids ⊆ idx).
  { subst ids. destruct (negb _).
    - intros x Hx. apply elem_of_app in Hx as [Hx|Hx].
      + by eapply py_slice_subseteq.
      + by eapply py_slice_to_subseteq.
    - apply py_slice_subseteq. }
  destruct (Z.ltb_spec 0 (len ids)) as [Hlen|Hlen]; [|done].
  constructor; [|done]. split.
  - intros Hnil. apply (f_equal length) in Hnil.
    rewrite length_map in Hnil. unfold len in Hlen. cbn in Hnil. lia.
  - exists h, w, b. split; [by eapply random_choice_elem|].
    intros x Hx. apply list_elem_of_fmap in Hx as (i & -> & Hi).
    split; [done|]. by apply Hsub.
Qed.

(** X3. For any scale tuples, also ill-formed ones, no yielded batch is
    empty, all its elements carry the crop size of one tuple of
    [img_batch_tuples], and every sample index in it is an index of the
    list: the sampler never makes up an index.  Both classes. *)
Theorem iter_elements_from_inputs (indices : list Z) (rnd : nat -> nat) (fuel : nat) :
  (forall self : VariableBatchSampler.t,
      Forall (fun b : batch =>
                b <> []
                /\ exists crop_h crop_w batch_size,
                     (crop_h, crop_w, batch_size) ∈ VariableBatchSampler.img_batch_tuples self
                     /\ forall x, x ∈ b -> x.1 = (crop_h, crop_w) /\ x.2 ∈ indices)
             (VariableBatchSampler.__iter__ self indices rnd fuel).1)
  /\ (forall self : VariableBatchSamplerDDP.t,
      Forall (fun b : batch =>
                b <> []
                /\ exists crop_h crop_w batch_size,
                     (crop_h, crop_w, batch_size) ∈ VariableBatchSamplerDDP.img_batch_tuples self
                     /\ forall x, x ∈ b -> x.1 = (crop_h, crop_w) /\ x.2 ∈ indices)
             (VariableBatchSamplerDDP.__iter__ self indices rnd fuel).1).
Proof.
  split; intros self.
  - apply while_loop_elements.
  - unfold VariableBatchSamplerDDP.__iter__. rewrite while_loop_ddp.
    apply while_loop_elements.
Qed.

(** ** [__iter__]: the shape of a pass *)

Lemma chained_next n s (its : list iteration) (k : nat) it it' :
  chained n s its -> its !! k = Some it -> its !! S k = Some it' ->
  it'.1 = slice_end n it.
Proof.
  revert s k. induction its as [|it0 its IH]; intros s k Hchain Hk Hk'; [done|].
  destruct Hchain as [_ Hchain]. destruct k as [|k].
  - cbn in Hk. injection Hk as ->.
    destruct its as [|it1 its]; [done|]. cbn in Hk'. injection Hk' as ->.
    by destruct Hchain.
  - cbn in Hk, Hk'. by eapply IH.
Qed.

(** X4. For positive batch sizes only the last batch of a pass can be
    padded: every batch that is followed by another one is exactly
    [batch_size] consecutive indices of the list, under the crop size of its
    tuple.  Both classes. *)
Theorem iter_only_last_batch_padded (tuples : list scale_tuple) (indices : list Z)
    (rnd : nat -> nat) (fuel : nat) :
  positive_batch_sizes tuples ->
  (forall (self : VariableBatchSampler.t) (k : nat) (b : batch),
      VariableBatchSampler.img_batch_tuples self = tuples ->
      (VariableBatchSampler.__iter__ self indices rnd fuel).1 !! k = Some b ->
      (S k < length (VariableBatchSampler.__iter__ self indices rnd fuel).1)%nat ->
      exists start crop_h crop_w batch_size,
        (crop_h, crop_w, batch_size) ∈ tuples
        /\ 0 <= start /\ start + batch_size < len indices
        /\ b = map (fun b_id => (crop_h, crop_w, b_id))
                   (take (Z.to_nat batch_size) (drop (Z.to_nat start) indices)))
  /\ (forall (self : VariableBatchSamplerDDP.t) (k : nat) (b : batch),
      VariableBatchSamplerDDP.img_batch_tuples self = tuples ->
      (VariableBatchSamplerDDP.__iter__ self indices rnd fuel).1 !! k = Some b ->
      (S k < length (VariableBatchSamplerDDP.__iter__ self indices rnd fuel).1)%nat ->
      exists start crop_h crop_w batch_size,
        (crop_h, crop_w, batch_size) ∈ tuples
        /\ 0 <= start /\ start + batch_size < len indices
        /\ b = map (fun b_id => (crop_h, crop_w, b_id))
                   (take (Z.to_nat batch_size) (drop (Z.to_nat start) indices))).
Proof.
  intros Hpos.
  destruct (while_loop_pass rnd tuples indices Hpos fuel 0%nat 0 ltac:(lia))
    as (its & Hys & Hall & Hchain & _).
  assert (Hmain : forall (k : nat) (b : batch),
    (VariableBatchSampler.while_loop rnd tuples indices fuel 0 0).1 !! k = Some b ->
    (S k < length (VariableBatchSampler.while_loop rnd tuples indices fuel 0 0).1)%nat ->
    exists start crop_h crop_w batch_size,
      (crop_h, crop_w, batch_size) ∈ tuples
      /\ 0 <= start /\ start + batch_size < len indices
      /\ b = map (fun b_id => (crop_h, crop_w, b_id))
                 (take (Z.to_nat batch_size) (drop (Z.to_nat start) indices))).
  { intros k b Hk Hlast. rewrite Hys in Hk, Hlast. rewrite length_map in Hlast.
    apply list_lookup_fmap_Some in Hk as (it & -> & Hit).
    destruct (lookup_lt_is_Some_2 its (S k) Hlast) as [it' Hit'].
    pose proof (chained_next _ _ _ _ _ _ Hchain Hit Hit') as Hnext.
    rewrite Forall_forall in Hall.
    destruct (Hall it (list_elem_of_lookup_2 _ _ _ Hit)) as [Hin Hs].
    destruct (Hall it' (list_elem_of_lookup_2 _ _ _ Hit')) as [_ Hs'].
    destruct it as [s [[h w] bs]]. cbn [fst snd slice_end] in *.
    exists s, h, w, bs. repeat split; try done; try lia.
    unfold yielded. rewrite padding_of_full by lia. rewrite app_nil_r.
    unfold slice_of. cbn [slice_end fst]. rewrite Z.min_l by lia.
    by replace (s + bs - s) with bs by lia. }
  split; intros self k b Htuples.
  - unfold VariableBatchSampler.__iter__. rewrite Htuples. apply Hmain.
  - unfold VariableBatchSamplerDDP.__iter__. rewrite Htuples, while_loop_ddp. apply Hmain.
Qed.

Lemma NoDup_wrapped (l : list Z) (s k : nat) :
  NoDup l -> (k <= s)%nat -> NoDup (drop s l ++ take k l).
Proof.
  intros Hnd Hk. apply NoDup_app. repeat split.
  - eapply sublist_NoDup; [done|apply sublist_drop].
  - intros x Hdrop Htake.
    rewrite <- (take_drop s l) in Hnd. apply NoDup_app in Hnd as (_ & Hdisj & _).
    apply (Hdisj x); [|done].
    apply elem_of_take in Htake as (i & Hi & Hlt).
    apply elem_of_take. exists i. split; [done|lia].
  - eapply sublist_NoDup; [done|apply sublist_take].
Qed.

Lemma NoDup_yielded (idx : list Z) s h w b :
  NoDup idx -> 0 <= s < len idx -> 1 <= b <= len idx ->
  NoDup (yielded idx (s, (h, w, b))).
Proof.
  intros Hnd Hs Hb.
  assert (Hinj : Inj (=) (=) (fun b_id : Z => (h, w, b_id))) by (intros x y [= ->]; done).
  destruct (Z.le_gt_cases (s + b) (len idx)) as [Hfull|Hwrap].
  - unfold yielded. rewrite padding_of_full, app_nil_r by done.
    apply (NoDup_fmap_2 _). unfold slice_of.
    eapply sublist_NoDup; [exact Hnd|].
    etrans; [apply sublist_take|apply sublist_drop].
  - rewrite yielded_wraps by lia.
    apply (NoDup_fmap_2 _). apply NoDup_wrapped; [done|lia].
Qed.

(** X5. When the index list has no repetition and is at least as long as
    every (positive) batch size, no batch holds the same sample twice, the
    padded last batch included.  Both classes. *)
Theorem iter_batches_without_repetition (tuples : list scale_tuple) (indices : list Z)
    (rnd : nat -> nat) (fuel : nat) :
  NoDup indices ->
  (forall h w b, (h, w, b) ∈ tuples -> 1 <= b <= len indices) ->
  (forall self : VariableBatchSampler.t,
      VariableBatchSampler.img_batch_tuples self = tuples ->
      Forall (fun b : batch => NoDup b)
             (VariableBatchSampler.__iter__ self indices rnd fuel).1)
  /\ (forall self : VariableBatchSamplerDDP.t,
      VariableBatchSamplerDDP.img_batch_tuples self = tuples ->
      Forall (fun b : batch => NoDup b)
             (VariableBatchSamplerDDP.__iter__ self indices rnd fuel).1).
Proof.
  intros Hnd Hsize.
  assert (Hpos : positive_batch_sizes tuples).
  { intros h w b Hin. destruct (Hsize h w b Hin). lia. }
  destruct (while_loop_pass rnd tuples indices Hpos fuel 0%nat 0 ltac:(lia))
    as (its & Hys & Hall & _).
  assert (Hmain : Forall (fun b : batch => NoDup b)
                    (VariableBatchSampler.while_loop rnd tuples indices fuel 0 0).1).
  { rewrite Hys. apply Forall_fmap. eapply Forall_impl; [exact Hall|].
    intros [s [[h w] b]] [Hin Hs]. cbn [fst snd] in *.
    apply NoDup_yielded; [done|done|]. by eapply Hsize. }
  split; intros self Htuples.
  - unfold VariableBatchSampler.__iter__. by rewrite Htuples.
  - unfold VariableBatchSamplerDDP.__iter__. by rewrite Htuples, while_loop_ddp.
Qed.

Lemma random_choice_singleton {A} (r : nat) (x : A) : random_choice r [x] = Return x.
Proof. unfold random_choice. cbn [length]. by rewrite Nat.mod_1_r. Qed.

(** The number of batches a single scale tuple gives from [start] on. *)
Lemma while_loop_single_count rnd (idx : list Z) h w b :
  1 <= b ->
  forall fuel draws start, 0 <= start ->
    Z.max 0 (len idx - start) < Z.of_nat fuel ->
    let run := VariableBatchSampler.while_loop rnd [(h, w, b)] idx fuel draws start in
    run.2 = Finished
    /\ Z.of_nat (length run.1) = (Z.max 0 (len idx - start) + b - 1) / b.
Proof.
  intros Hb. induction fuel as [|fuel IH]; intros draws start Hs Hfuel run; [lia|].
  subst run. cbn [VariableBatchSampler.while_loop].
  destruct (Z.ltb_spec start (len idx)) as [Hlt|Hge].
  2:{ cbn. split; [done|]. rewrite Z.max_l by lia. symmetry. apply Z.div_small. lia. }
  rewrite random_choice_singleton.
  destruct (body_batch_ids idx start h w b ltac:(lia) Hb) as [Hids Hnonempty].
  cbv zeta in Hids, Hnonempty. rewrite Hids in *. clear Hids.
  destruct (IH (S draws) (start + b) ltac:(lia) ltac:(lia)) as [Hfin Hcount].
  destruct (VariableBatchSampler.while_loop rnd [(h, w, b)] idx fuel (S draws) (start + b))
    as [rest e]. cbn [fst snd] in *.
  destruct (Z.ltb_spec 0 (len (slice_of idx (start, (h, w, b)) ++ padding_of idx (start, (h, w, b)))));
    [|lia].
  cbn [fst snd length]. split; [done|].
  rewrite Nat2Z.inj_succ, Hcount. rewrite (Z.max_r 0 (len idx - start)) by lia.
  destruct (Z.le_gt_cases (len idx - (start + b)) 0) as [Hlast|Hmore].
  - rewrite Z.max_l by lia. rewrite (Z.div_small (0 + b - 1)) by lia.
    change (Z.succ 0) with 1.
    apply (Z.div_unique_pos _ _ 1 (len idx - start - 1)); lia.
  - rewrite Z.max_r by lia.
    replace (len idx - start + b - 1) with (len idx - (start + b) + b - 1 + 1 * b) by lia.
    rewrite Z.div_add by lia. lia.
Qed.

(** X6. A sampler with the single scale tuple of validation mode and a
    positive batch size yields [ceil(n / batch_size)] batches over [n]
    indices, and the pass ends within [n + 1] tests of the loop condition.
    Both classes. *)
Theorem iter_single_scale_batch_count (crop_h crop_w batch_size : Z)
    (indices : list Z) (rnd : nat -> nat) :
  1 <= batch_size ->
  (forall self : VariableBatchSampler.t,
      VariableBatchSampler.img_batch_tuples self = [(crop_h, crop_w, batch_size)] ->
      let run := VariableBatchSampler.__iter__ self indices rnd (S (length indices)) in
      run.2 = Finished
      /\ len run.1 = (len indices + batch_size - 1) / batch_size)
  /\ (forall self : VariableBatchSamplerDDP.t,
      VariableBatchSamplerDDP.img_batch_tuples self = [(crop_h, crop_w, batch_size)] ->
      let run := VariableBatchSamplerDDP.__iter__ self indices rnd (S (length indices)) in
      run.2 = Finished
      /\ len run.1 = (len indices + batch_size - 1) / batch_size).
Proof.
  intros Hb.
  pose proof (while_loop_single_count rnd indices crop_h crop_w batch_size Hb
                (S (length indices)) 0%nat 0 ltac:(lia)) as Hcount.
  rewrite Z.sub_0_r, Z.max_r in Hcount by apply len_nonneg.
  specialize (Hcount ltac:(unfold len; lia)).
  split; intros self Htuples run; subst run.
  - unfold VariableBatchSampler.__iter__. rewrite Htuples. exact Hcount.
  - unfold VariableBatchSamplerDDP.__iter__. rewrite Htuples, while_loop_ddp. exact Hcount.
Qed.

Lemma length_concat_nonempty {A} (ls : list (list A)) :
  Forall (fun l => l <> []) ls -> (length ls <= length (concat ls))%nat.
Proof.
  induction 1 as [|l ls Hl _ IH]; [done|].
  cbn. rewrite length_app. destruct l; [done|]. cbn. lia.
Qed.

Lemma length_concat_yielded (idx : list Z) (its : list iteration) :
  (length (concat (map (slice_of idx) its))
   <= length (concat (map (yielded idx) its)))%nat.
Proof.
  induction its as [|[s [[h w] b]] its IH]; [done|].
  cbn [map concat]. rewrite !length_app. unfold yielded at 1.
  rewrite length_map, length_app. lia.
Qed.

(** X7. The size of a full pass, for positive batch sizes: over [n] indices
    it yields at most [n] batches, and the batches hold at least [n]
    elements in all.  Both classes. *)
Theorem iter_pass_size (tuples : list scale_tuple) (indices : list Z)
    (rnd : nat -> nat) (fuel : nat) :
  positive_batch_sizes tuples ->
  (forall self : VariableBatchSampler.t,
      VariableBatchSampler.img_batch_tuples self = tuples ->
      let run := VariableBatchSampler.__iter__ self indices rnd fuel in
      run.2 = Finished ->
      len run.1 <= len indices /\ len indices <= len (concat run.1))
  /\ (forall self : VariableBatchSamplerDDP.t,
      VariableBatchSamplerDDP.img_batch_tuples self = tuples ->
      let run := VariableBatchSamplerDDP.__iter__ self indices rnd fuel in
      run.2 = Finished ->
      len run.1 <= len indices /\ len indices <= len (concat run.1)).
Proof.
  intros Hpos.
  destruct (while_loop_pass rnd tuples indices Hpos fuel 0%nat 0 ltac:(lia))
    as (its & Hys & Hall & _ & Hcover & _).
  assert (Hmain : (VariableBatchSampler.while_loop rnd tuples indices fuel 0 0).2 = Finished ->
            len (VariableBatchSampler.while_loop rnd tuples indices fuel 0 0).1 <= len indices
            /\ len indices
               <= len (concat (VariableBatchSampler.while_loop rnd tuples indices fuel 0 0).1)).
  { intros Hfin. specialize (Hcover Hfin).
    change (drop (Z.to_nat 0) indices) with indices in Hcover.
    rewrite Hys. unfold len. rewrite length_map.
    assert (Hnonempty : Forall (fun l : list Z => l <> []) (map (slice_of indices) its)).
    { apply Forall_fmap. eapply Forall_impl; [exact Hall|].
      intros [s [[h w] b]] [Hin Hs]. cbn [fst snd] in *.
      apply slice_of_nonempty; [done|]. by eapply Hpos. }
    pose proof (length_concat_nonempty _ Hnonempty) as Hle.
    rewrite length_map, Hcover in Hle.
    pose proof (length_concat_yielded indices its) as Hge.
    rewrite Hcover in Hge. lia. }
  split; intros self Htuples run; subst run.
  - unfold VariableBatchSampler.__iter__. rewrite Htuples. exact Hmain.
  - unfold VariableBatchSamplerDDP.__iter__. rewrite Htuples, while_loop_ddp. exact Hmain.
Qed.

(** X19. When every batch size exceeds the length of a non-empty index
    list, a pass is a single batch: the whole list followed by its first
    [batch_size - n] elements (all of them again when [batch_size] is
    [2 n] or more), so that samples repeat and the batch has
    [min(batch_size, 2 n)] elements.  Both classes. *)
Theorem iter_oversized_batch (tuples : list scale_tuple) (indices : list Z)
    (rnd : nat -> nat) (fuel : nat) :
  indices <> [] ->
  tuples <> [] ->
  (forall h w b, (h, w, b) ∈ tuples -> len indices < b) ->
  exists crop_h crop_w batch_size,
    (crop_h, crop_w, batch_size) ∈ tuples
    /\ len (indices ++ take (Z.to_nat (batch_size - len indices)) indices)
       = Z.min batch_size (2 * len indices)
    /\ (forall self : VariableBatchSampler.t,
          VariableBatchSampler.img_batch_tuples self = tuples ->
          VariableBatchSampler.__iter__ self indices rnd (S (S fuel))
          = ([map (fun b_id => (crop_h, crop_w, b_id))
                  (indices ++ take (Z.to_nat (batch_size - len indices)) indices)],
             Finished))
    /\ (forall self : VariableBatchSamplerDDP.t,
          VariableBatchSamplerDDP.img_batch_tuples self = tuples ->
          VariableBatchSamplerDDP.__iter__ self indices rnd (S (S fuel))
          = ([map (fun b_id => (crop_h, crop_w, b_id))
                  (indices ++ take (Z.to_nat (batch_size - len indices)) indices)],
             Finished)).
Proof.
  intros Hidx Hne Hbig.
  assert (Hn : 1 <= len indices).
  { destruct indices; [done|]. unfold len. cbn. lia. }
  destruct (random_choice_nonempty (rnd 0%nat) tuples Hne) as [[[h w] b] Hch].
  pose proof (Hbig _ _ _ (random_choice_elem _ _ _ Hch)) as Hb.
  exists h, w, b. split; [by eapply random_choice_elem|]. split.
  { rewrite len_app. unfold len in *. rewrite length_take. lia. }
  assert (Hmain : VariableBatchSampler.while_loop rnd tuples indices (S (S fuel)) 0 0
                  = ([map (fun b_id => (h, w, b_id))
                          (indices ++ take (Z.to_nat (b - len indices)) indices)],
                     Finished)).
  { cbn [VariableBatchSampler.while_loop].
    destruct (Z.ltb_spec 0 (len indices)); [|lia].
    rewrite Hch.
    destruct (body_batch_ids indices 0 h w b ltac:(lia) ltac:(lia)) as [Hids Hnonempty].
    cbv zeta in Hids, Hnonempty. rewrite Hids in *. clear Hids.
    destruct (Z.ltb_spec (0 + b) (len indices)); [lia|].
    destruct (Z.ltb_spec 0 (len (slice_of indices (0, (h, w, b))
                                 ++ padding_of indices (0, (h, w, b))))); [|lia].
    assert (Hslice : slice_of indices (0, (h, w, b)) = indices).
    { unfold slice_of. cbn [slice_end fst]. rewrite Z.min_r by lia.
      cbn [Z.to_nat drop]. apply take_ge. unfold len. lia. }
    assert (Hpad : padding_of indices (0, (h, w, b))
                   = take (Z.to_nat (b - len indices)) indices).
    { unfold padding_of. cbn [slice_end]. rewrite Z.min_r by lia.
      by rewrite Z.sub_0_r. }
    by rewrite Hslice, Hpad. }
  split; intros self Htuples.
  - unfold VariableBatchSampler.__iter__. by rewrite Htuples.
  - unfold VariableBatchSamplerDDP.__iter__. by rewrite Htuples, while_loop_ddp.
Qed.

(** ** [update_scales]: what it leaves alone, and how it fails *)

Lemma int_mul_raises z f e :
  PyFloat.int_mul z f = Raise e -> e = OverflowError \/ e = ValueError.
Proof.
  unfold PyFloat.int_mul, PyFloat.of_int, PyFloat.to_int.
  destruct (binary_normalize _ _ _ _ _); try (intros [= <-]; by left);
    destruct (PyFloat.mul _ _); intros [= <-]; auto.
Qed.

Lemma all_from_spec (f : Z -> bool) (n : nat) :
  forall z, all_from f z n = true -> forall k, z <= k < z + Z.of_nat n -> f k = true.
Proof.
  induction n as [|n IH]; intros z Hall k Hk; [lia|].
  cbn [all_from] in Hall. apply andb_true_iff in Hall as [Hz Hall].
  destruct (Z.eq_dec k z) as [->|Hne]; [done|].
  apply (IH (z + 1)); [done|lia].
Qed.

Lemma int_mul_one_upto_spec (n : Z) :
  int_mul_one_upto n = true ->
  forall z, 0 <= z <= n -> PyFloat.int_mul z one_point_zero = Return z.
Proof.
  unfold int_mul_one_upto. intros Hall z Hz.
  assert (Hrange : 0 <= z < 0 + Z.of_nat (Z.to_nat (n + 1))).
  { rewrite Z2Nat.id; lia. }
  pose proof (all_from_spec _ _ _ Hall z Hrange) as Hk. cbn beta in Hk.
  destruct (PyFloat.int_mul z one_point_zero) as [r|e]; [|done].
  f_equal. by apply Z.eqb_eq.
Qed.

Lemma int_mul_one_checked : int_mul_one_upto 4096 = true.
Proof. vm_compute. reflexivity. Qed.

Lemma int_mul_one_small z :
  0 <= z <= 4096 -> PyFloat.int_mul z one_point_zero = Return z.
Proof. exact (int_mul_one_upto_spec 4096 int_mul_one_checked z). Qed.

Section UpdateScalesMore.

Variable _image_batch_pairs : image_batch_pairs_t.
Variables DEFAULT_IMAGE_WIDTH DEFAULT_IMAGE_HEIGHT : Z.

(** X8. Whatever the epoch and however the call ends, [update_scales]
    never writes the base crop size, the base batch size, the number of
    devices, the two factors, the epoch intervals, [max_img_scales],
    [check_scale_div_factor] or [scale_inc].  Both classes. *)
Theorem update_scales_keeps_configuration (epoch : Z) (is_master_node : bool) :
  (forall self : VariableBatchSampler.t,
      let self' := (VariableBatchSampler.update_scales _image_batch_pairs
                      epoch is_master_node self).1.2 in
      VariableBatchSampler.crop_size_h self' = VariableBatchSampler.crop_size_h self
      /\ VariableBatchSampler.crop_size_w self' = VariableBatchSampler.crop_size_w self
      /\ VariableBatchSampler.batch_size_gpu0 self' = VariableBatchSampler.batch_size_gpu0 self
      /\ VariableBatchSampler.n_gpus self' = VariableBatchSampler.n_gpus self
      /\ VariableBatchSampler.min_scale_inc_factor self'
         = VariableBatchSampler.min_scale_inc_factor self
      /\ VariableBatchSampler.max_scale_inc_factor self'
         = VariableBatchSampler.max_scale_inc_factor self
      /\ VariableBatchSampler.scale_ep_intervals self'
         = VariableBatchSampler.scale_ep_intervals self
      /\ VariableBatchSampler.max_img_scales self' = VariableBatchSampler.max_img_scales self
      /\ VariableBatchSampler.check_scale_div_factor self'
         = VariableBatchSampler.check_scale_div_factor self
      /\ VariableBatchSampler.scale_inc self' = VariableBatchSampler.scale_inc self)
  /\ (forall self : VariableBatchSamplerDDP.t,
      let self' := (VariableBatchSamplerDDP.update_scales _image_batch_pairs
                      epoch is_master_node self).1.2 in
      VariableBatchSamplerDDP.crop_size_h self' = VariableBatchSamplerDDP.crop_size_h self
      /\ VariableBatchSamplerDDP.crop_size_w self' = VariableBatchSamplerDDP.crop_size_w self
      /\ VariableBatchSamplerDDP.batch_size_gpu0 self'
         = VariableBatchSamplerDDP.batch_size_gpu0 self
      /\ VariableBatchSamplerDDP.num_replicas self' = VariableBatchSamplerDDP.num_replicas self
      /\ VariableBatchSamplerDDP.min_scale_inc_factor self'
         = VariableBatchSamplerDDP.min_scale_inc_factor self
      /\ VariableBatchSamplerDDP.max_scale_inc_factor self'
         = VariableBatchSamplerDDP.max_scale_inc_factor self
      /\ VariableBatchSamplerDDP.scale_ep_intervals self'
         = VariableBatchSamplerDDP.scale_ep_intervals self
      /\ VariableBatchSamplerDDP.max_img_scales self'
         = VariableBatchSamplerDDP.max_img_scales self
      /\ VariableBatchSamplerDDP.check_scale_div_factor self'
         = VariableBatchSamplerDDP.check_scale_div_factor self
      /\ VariableBatchSamplerDDP.scale_inc self' = VariableBatchSamplerDDP.scale_inc self).
Proof.
  split; intros [b0 ng minw maxw minh maxh cw ch fmin fmax eps ms cs inc tuples] self';
    subst self'; run_method; cbn.
  - destruct (bool_decide (epoch ∈ eps)), inc; cbn; [|by repeat split..].
    destruct (PyFloat.int_mul minw fmin); cbn; [|by repeat split].
    destruct (PyFloat.int_mul maxw fmax); cbn; [|by repeat split].
    destruct (PyFloat.int_mul minh fmin); cbn; [|by repeat split].
    destruct (PyFloat.int_mul maxh fmax); cbn; [|by repeat split].
    destruct is_master_node; by repeat split.
  - destruct (py_in epoch eps) as [[|]|e], inc; cbn; try (by repeat split).
    destruct (PyFloat.int_mul minw fmin); cbn; [|by repeat split].
    destruct (PyFloat.int_mul maxw fmax); cbn; [|by repeat split].
    destruct (PyFloat.int_mul minh fmin); cbn; [|by repeat split].
    destruct (PyFloat.int_mul maxh fmax); cbn; [|by repeat split].
    destruct is_master_node; by repeat split.
Qed.

(** X9. A call of [update_scales] that raises leaves [img_batch_tuples] as
    it was and logs nothing, but keeps the bounds it had already raised:
    when [int(min_crop_size_w * f)] has a value and
    [int(max_crop_size_w * f)] raises, the object is left with the new
    [min_crop_size_w] next to the old three other bounds and the old scale
    tuples.  Both classes. *)
Theorem update_scales_raises_half_way (epoch : Z) (is_master_node : bool) :
  (forall (self : VariableBatchSampler.t) (e : exn),
      let run := VariableBatchSampler.update_scales _image_batch_pairs
                   epoch is_master_node self in
      run.1.1 = Raise e ->
      VariableBatchSampler.img_batch_tuples run.1.2 = VariableBatchSampler.img_batch_tuples self
      /\ run.2 = [])
  /\ (forall (self : VariableBatchSampler.t) (d : Z) (e : exn),
      epoch ∈ VariableBatchSampler.scale_ep_intervals self ->
      VariableBatchSampler.scale_inc self = true ->
      PyFloat.int_mul (VariableBatchSampler.min_crop_size_w self)
        (VariableBatchSampler.min_scale_inc_factor self) = Return d ->
      PyFloat.int_mul (VariableBatchSampler.max_crop_size_w self)
        (VariableBatchSampler.max_scale_inc_factor self) = Raise e ->
      let run := VariableBatchSampler.update_scales _image_batch_pairs
                   epoch is_master_node self in
      run.1.1 = Raise e
      /\ VariableBatchSampler.min_crop_size_w run.1.2
         = VariableBatchSampler.min_crop_size_w self + d
      /\ VariableBatchSampler.max_crop_size_w run.1.2 = VariableBatchSampler.max_crop_size_w self
      /\ VariableBatchSampler.min_crop_size_h run.1.2 = VariableBatchSampler.min_crop_size_h self
      /\ VariableBatchSampler.max_crop_size_h run.1.2 = VariableBatchSampler.max_crop_size_h self)
  /\ (forall (self : VariableBatchSamplerDDP.t) (e : exn),
      let run := VariableBatchSamplerDDP.update_scales _image_batch_pairs
                   epoch is_master_node self in
      run.1.1 = Raise e ->
      VariableBatchSamplerDDP.img_batch_tuples run.1.2
      = VariableBatchSamplerDDP.img_batch_tuples self
      /\ run.2 = [])
  /\ (forall (self : VariableBatchSamplerDDP.t) (d : Z) (e : exn),
      py_in epoch (VariableBatchSamplerDDP.scale_ep_intervals self) = Return true ->
      VariableBatchSamplerDDP.scale_inc self = true ->
      PyFloat.int_mul (VariableBatchSamplerDDP.min_crop_size_w self)
        (VariableBatchSamplerDDP.min_scale_inc_factor self) = Return d ->
      PyFloat.int_mul (VariableBatchSamplerDDP.max_crop_size_w self)
        (VariableBatchSamplerDDP.max_scale_inc_factor self) = Raise e ->
      let run := VariableBatchSamplerDDP.update_scales _image_batch_pairs
                   epoch is_master_node self in
      run.1.1 = Raise e
      /\ VariableBatchSamplerDDP.min_crop_size_w run.1.2
         = VariableBatchSamplerDDP.min_crop_size_w self + d
      /\ VariableBatchSamplerDDP.max_crop_size_w run.1.2
         = VariableBatchSamplerDDP.max_crop_size_w self
      /\ VariableBatchSamplerDDP.min_crop_size_h run.1.2
         = VariableBatchSamplerDDP.min_crop_size_h self
      /\ VariableBatchSamplerDDP.max_crop_size_h run.1.2
         = VariableBatchSamplerDDP.max_crop_size_h self).
Proof.
  repeat apply conj.
  - intros [b0 ng minw maxw minh maxh cw ch fmin fmax eps ms cs inc tuples] e run;
      subst run; run_method; cbn.
    destruct (bool_decide (epoch ∈ eps)), inc; cbn; try done.
    destruct (PyFloat.int_mul minw fmin); cbn; [|done].
    destruct (PyFloat.int_mul maxw fmax); cbn; [|done].
    destruct (PyFloat.int_mul minh fmin); cbn; [|done].
    destruct (PyFloat.int_mul maxh fmax); cbn; [|done].
    destruct is_master_node; done.
  - intros self d e Hin Hinc Hmin Hmax run; subst run; run_method.
    rewrite (bool_decide_eq_true_2 _ Hin), Hinc. cbn.
    rewrite Hmin. cbn. rewrite Hmax. cbn. done.
  - intros [b0 ng minw maxw minh maxh cw ch fmin fmax eps ms cs inc tuples] e run;
      subst run; run_method; cbn.
    destruct (py_in epoch eps) as [[|]|e'], inc; cbn; try done.
    destruct (PyFloat.int_mul minw fmin); cbn; [|done].
    destruct (PyFloat.int_mul maxw fmax); cbn; [|done].
    destruct (PyFloat.int_mul minh fmin); cbn; [|done].
    destruct (PyFloat.int_mul maxh fmax); cbn; [|done].
    destruct is_master_node; done.
  - intros self d e Hin Hinc Hmin Hmax run; subst run; run_method.
    rewrite Hin, Hinc. cbn.
    rewrite Hmin. cbn. rewrite Hmax. cbn. done.
Qed.

(** X10. What [update_scales] logs: on the master node, a call that
    updates the scales logs the class name and then the new scale tuples;
    every other call (not the master node, an epoch that is not configured,
    [scale_inc] off, an exception) logs nothing.  Both classes. *)
Theorem update_scales_log (epoch : Z) (is_master_node : bool) :
  (forall self : VariableBatchSampler.t,
      let run := VariableBatchSampler.update_scales _image_batch_pairs
                   epoch is_master_node self in
      run.2 =
        match run.1.1 with
        | Return _ =>
            if bool_decide (epoch ∈ VariableBatchSampler.scale_ep_intervals self)
               && VariableBatchSampler.scale_inc self && is_master_node
            then [ScalesUpdatedIn "VariableBatchSampler";
                  NewScales (VariableBatchSampler.img_batch_tuples run.1.2)]
            else []
        | Raise _ => []
        end)
  /\ (forall self : VariableBatchSamplerDDP.t,
      let run := VariableBatchSamplerDDP.update_scales _image_batch_pairs
                   epoch is_master_node self in
      run.2 =
        match run.1.1 with
        | Return _ =>
            match py_in epoch (VariableBatchSamplerDDP.scale_ep_intervals self) with
            | Return true =>
                if VariableBatchSamplerDDP.scale_inc self && is_master_node
                then [ScalesUpdatedIn "VariableBatchSamplerDDP";
                      NewScales (VariableBatchSamplerDDP.img_batch_tuples run.1.2)]
                else []
            | _ => []
            end
        | Raise _ => []
        end).
Proof.
  split; intros [b0 ng minw maxw minh maxh cw ch fmin fmax eps ms cs inc tuples] run;
    subst run; run_method; cbn.
  - destruct (bool_decide (epoch ∈ eps)), inc; cbn; try done.
    destruct (PyFloat.int_mul minw fmin); cbn; [|done].
    destruct (PyFloat.int_mul maxw fmax); cbn; [|done].
    destruct (PyFloat.int_mul minh fmin); cbn; [|done].
    destruct (PyFloat.int_mul maxh fmax); cbn; [|done].
    destruct is_master_node; done.
  - destruct (py_in epoch eps) as [[|]|e'], inc; cbn; try done.
    destruct (PyFloat.int_mul minw fmin); cbn; [|done].
    destruct (PyFloat.int_mul maxw fmax); cbn; [|done].
    destruct (PyFloat.int_mul minh fmin); cbn; [|done].
    destruct (PyFloat.int_mul maxh fmax); cbn; [|done].
    destruct is_master_node; done.
Qed.

End UpdateScalesMore.

Section UpdateScalesDefaults.

Variable _image_batch_pairs : image_batch_pairs_t.
Variables DEFAULT_IMAGE_WIDTH DEFAULT_IMAGE_HEIGHT : Z.

(** X11. Options that give [ep_intervals] as an integer: the data-parallel
    sampler stores it as a one-element list, and its [update_scales] never
    raises [TypeError]; the distributed sampler stores the integer, and its
    [update_scales] raises [TypeError] at every epoch, also with
    [scale_inc] off, leaving the object as it was and logging nothing. *)
Theorem integer_ep_intervals (b0 n : Z) (opts : Opts) (n_data_samples : Z)
    (is_training : bool) (interval epoch : Z) (is_master_node : bool) :
  sampler_vbs_ep_intervals opts = Some (EpInt interval) ->
  (let self := VariableBatchSampler.__init__ _image_batch_pairs
                 DEFAULT_IMAGE_WIDTH DEFAULT_IMAGE_HEIGHT b0 n opts n_data_samples
                 is_training in
   VariableBatchSampler.scale_ep_intervals self = [interval]
   /\ (VariableBatchSampler.update_scales _image_batch_pairs epoch is_master_node self).1.1
      <> Raise TypeError)
  /\ (let self := VariableBatchSamplerDDP.__init__ _image_batch_pairs
                    DEFAULT_IMAGE_WIDTH DEFAULT_IMAGE_HEIGHT b0 n opts n_data_samples
                    is_training in
      VariableBatchSamplerDDP.update_scales _image_batch_pairs epoch is_master_node self
      = (Raise TypeError, self, [])).
Proof.
  intros Hopt. split.
  - intros self. split.
    + subst self. unfold VariableBatchSampler.__init__. by rewrite Hopt.
    + generalize self. clear self.
      intros [b0' ng minw maxw minh maxh cw ch fmin fmax eps ms cs inc tuples].
      run_method. cbn.
      destruct (bool_decide (epoch ∈ eps)), inc; cbn; try done.
      destruct (PyFloat.int_mul minw fmin) eqn:E1; cbn;
        [|intros [= ->]; by destruct (int_mul_raises _ _ _ E1)].
      destruct (PyFloat.int_mul maxw fmax) eqn:E2; cbn;
        [|intros [= ->]; by destruct (int_mul_raises _ _ _ E2)].
      destruct (PyFloat.int_mul minh fmin) eqn:E3; cbn;
        [|intros [= ->]; by destruct (int_mul_raises _ _ _ E3)].
      destruct (PyFloat.int_mul maxh fmax) eqn:E4; cbn;
        [|intros [= ->]; by destruct (int_mul_raises _ _ _ E4)].
      destruct is_master_node; done.
  - intros self. subst self. run_method.
    unfold VariableBatchSamplerDDP.__init__. rewrite Hopt. done.
Qed.

(** X12. With both factors at their default [1.0] and the four crop bounds
    between 0 and 4096, an update that fires doubles each bound and
    returns normally: [int(b * 1.0)] is [b].  Both classes. *)
Theorem update_scales_default_factors (epoch : Z) (is_master_node : bool) :
  (forall self : VariableBatchSampler.t,
      epoch ∈ VariableBatchSampler.scale_ep_intervals self ->
      VariableBatchSampler.scale_inc self = true ->
      VariableBatchSampler.min_scale_inc_factor self = one_point_zero ->
      VariableBatchSampler.max_scale_inc_factor self = one_point_zero ->
      0 <= VariableBatchSampler.min_crop_size_w self <= 4096 ->
      0 <= VariableBatchSampler.max_crop_size_w self <= 4096 ->
      0 <= VariableBatchSampler.min_crop_size_h self <= 4096 ->
      0 <= VariableBatchSampler.max_crop_size_h self <= 4096 ->
      let run := VariableBatchSampler.update_scales _image_batch_pairs
                   epoch is_master_node self in
      run.1.1 = Return tt
      /\ VariableBatchSampler.min_crop_size_w run.1.2
         = 2 * VariableBatchSampler.min_crop_size_w self
      /\ VariableBatchSampler.max_crop_size_w run.1.2
         = 2 * VariableBatchSampler.max_crop_size_w self
      /\ VariableBatchSampler.min_crop_size_h run.1.2
         = 2 * VariableBatchSampler.min_crop_size_h self
      /\ VariableBatchSampler.max_crop_size_h run.1.2
         = 2 * VariableBatchSampler.max_crop_size_h self)
  /\ (forall self : VariableBatchSamplerDDP.t,
      py_in epoch (VariableBatchSamplerDDP.scale_ep_intervals self) = Return true ->
      VariableBatchSamplerDDP.scale_inc self = true ->
      VariableBatchSamplerDDP.min_scale_inc_factor self = one_point_zero ->
      VariableBatchSamplerDDP.max_scale_inc_factor self = one_point_zero ->
      0 <= VariableBatchSamplerDDP.min_crop_size_w self <= 4096 ->
      0 <= VariableBatchSamplerDDP.max_crop_size_w self <= 4096 ->
      0 <= VariableBatchSamplerDDP.min_crop_size_h self <= 4096 ->
      0 <= VariableBatchSamplerDDP.max_crop_size_h self <= 4096 ->
      let run := VariableBatchSamplerDDP.update_scales _image_batch_pairs
                   epoch is_master_node self in
      run.1.1 = Return tt
      /\ VariableBatchSamplerDDP.min_crop_size_w run.1.2
         = 2 * VariableBatchSamplerDDP.min_crop_size_w self
      /\ VariableBatchSamplerDDP.max_crop_size_w run.1.2
         = 2 * VariableBatchSamplerDDP.max_crop_size_w self
      /\ VariableBatchSamplerDDP.min_crop_size_h run.1.2
         = 2 * VariableBatchSamplerDDP.min_crop_size_h self
      /\ VariableBatchSamplerDDP.max_crop_size_h run.1.2
         = 2 * VariableBatchSamplerDDP.max_crop_size_h self).
Proof.
  split; intros self Hin Hinc Hfmin Hfmax Hminw Hmaxw Hminh Hmaxh run;
    subst run;
    pose proof (int_mul_one_small _ Hminw) as E1;
    pose proof (int_mul_one_small _ Hmaxw) as E2;
    pose proof (int_mul_one_small _ Hminh) as E3;
    pose proof (int_mul_one_small _ Hmaxh) as E4;
    rewrite <- Hfmin in E1, E3; rewrite <- Hfmax in E2, E4;
    run_method.
  - rewrite (bool_decide_eq_true_2 _ Hin), Hinc. cbn.
    rewrite E1. cbn. rewrite E2. cbn. rewrite E3. cbn. rewrite E4. cbn.
    destruct is_master_node; cbn; repeat split; lia.
  - rewrite Hin, Hinc. cbn.
    rewrite E1. cbn. rewrite E2. cbn. rewrite E3. cbn. rewrite E4. cbn.
    destruct is_master_node; cbn; repeat split; lia.
Qed.

End UpdateScalesDefaults.

(** * Further properties of the dataset *)

Lemma py_index_out_of_range {A} (l : list A) (i : Z) :
  i < - len l \/ len l <= i -> py_index l i = Raise IndexError.
Proof.
  unfold py_index, len. intros Hi.
  destruct (Z.ltb_spec i 0);
    destruct (Z.leb_spec 0 (i + Z.of_nat (length l)));
    destruct (Z.leb_spec 0 i);
    destruct (Z.ltb_spec (i + Z.of_nat (length l)) (Z.of_nat (length l)));
    destruct (Z.ltb_spec i (Z.of_nat (length l)));
    cbn; try done; lia.
Qed.

Lemma py_index_nonneg {A} (l : list A) (i : Z) :
  0 <= i < len l -> py_index l i = Return (Z.to_nat i).
Proof.
  unfold py_index, len. intros Hi.
  destruct (Z.ltb_spec i 0); [lia|].
  destruct (Z.leb_spec 0 i); [|lia].
  destruct (Z.ltb_spec i (Z.of_nat (length l))); [done|lia].
Qed.

Section DatasetMore.

Variable Tensor : Type.
Variable read_image_opencv : string -> option ndarray.
Variable np_zeros : Z -> Z -> Z -> result ndarray.
Variable Compose : Type.
Variable tf_Compose : list ImagenetOpenCVTransforms.stage -> result Compose.
Variable compose_call :
  Compose -> gmap string (ImagenetOpenCVDataset.value Tensor)
  -> result (gmap string (ImagenetOpenCVDataset.value Tensor)).

(** What building the transform logs: nothing in training mode, the
    warnings of [_validation_transforms] otherwise. *)
Lemma transform_for_lines (self : ImagenetOpenCVDataset.t) crop_h crop_w :
  (transform_for tf_Compose self crop_h crop_w self).2
  = if ImagenetOpenCVDataset.is_training self then []
    else map LoggerWarning
           (ImagenetOpenCVTransforms._validation_transforms
              (ImagenetOpenCVDataset.opts_dataset_imagenet_crop_ratio self)
              (ImagenetOpenCVTransforms.SizeSeq [crop_h; crop_w])).2.
Proof.
  unfold transform_for, ImagenetOpenCVDataset._training_transforms,
    ImagenetOpenCVDataset._validation_transforms,
    mbind, M_bind, mret, M_ret, get, lift, logger_warnings.
  destruct (ImagenetOpenCVDataset.is_training self); cbn beta iota.
  - destruct (ImagenetOpenCVTransforms._training_transforms _) as [stages|e]; [|done].
    by destruct (tf_Compose stages).
  - destruct (ImagenetOpenCVTransforms._validation_transforms _ _) as [[stages|e] ws];
      cbn; [|by rewrite ?app_nil_r].
    destruct (tf_Compose stages); cbn; by rewrite ?app_nil_r.
Qed.

(** The run of [__getitem__] on an index out of range. *)
Lemma getitem_out_of_range_run (self : ImagenetOpenCVDataset.t) crop_h crop_w img_index :
  img_index < - ImagenetOpenCVDataset.__len__ self
  \/ ImagenetOpenCVDataset.__len__ self <= img_index ->
  let build := transform_for tf_Compose self crop_h crop_w self in
  ImagenetOpenCVDataset.__getitem__ Tensor read_image_opencv np_zeros
    Compose tf_Compose compose_call (crop_h, crop_w, img_index) self
  = (match build.1.1 with
     | Return _ => Raise IndexError
     | Raise e => Raise e
     end, self, build.2).
Proof.
  intros Hout build. subst build.
  pose proof (transform_for_frame tf_Compose self crop_h crop_w) as Hframe.
  destruct (transform_for tf_Compose self crop_h crop_w self) as [[r s'] lines] eqn:Hb.
  cbn [fst snd] in *. subst s'. unfold transform_for in Hb.
  run_getitem. rewrite Hb. destruct r as [transform_fn|e]; cbn beta iota; [|done].
  rewrite (py_index_out_of_range _ _ Hout). cbn. by rewrite ?app_nil_r.
Qed.

(** X13. For an index in range whose file decodes, once the transform of
    the call is built, [__getitem__] leaves the dataset unchanged and logs
    nothing beyond what building the transform logged.  If the transform
    raises on the decoded image, so does the call; if it returns, the call
    returns its result with [label] and [sample_id] written over whatever
    the transform left under these keys. *)
Theorem getitem_decodable (self : ImagenetOpenCVDataset.t)
    crop_h crop_w img_index i img_path target input_img transform_fn lines :
  py_index (ImagenetOpenCVDataset.samples self) img_index = Return i ->
  ImagenetOpenCVDataset.samples self !! i = Some (img_path, target) ->
  read_image_opencv img_path = Some input_img ->
  transform_for tf_Compose self crop_h crop_w self = (Return transform_fn, self, lines) ->
  let run := ImagenetOpenCVDataset.__getitem__ Tensor read_image_opencv np_zeros
               Compose tf_Compose compose_call (crop_h, crop_w, img_index) self in
  run.1.2 = self
  /\ run.2 = lines
  /\ match compose_call transform_fn
             {["image" := ImagenetOpenCVDataset.VArray input_img]} with
     | Raise e => run.1.1 = Raise e
     | Return out =>
         exists data,
           run.1.1 = Return data
           /\ data !! "label" = Some (ImagenetOpenCVDataset.VInt target)
           /\ data !! "sample_id" = Some (ImagenetOpenCVDataset.VInt img_index)
           /\ forall key, key <> "label" -> key <> "sample_id" -> data !! key = out !! key
     end.
Proof.
  intros Hidx Hsample Hread Hbuild run. subst run. unfold transform_for in Hbuild.
  run_getitem. rewrite Hbuild. cbn beta iota.
  rewrite Hidx. cbn beta iota. rewrite Hsample. cbn. rewrite Hread. cbn.
  destruct (compose_call transform_fn _) as [out|e]; cbn; rewrite ?app_nil_r;
    (split; [done|]); (split; [done|]); [|done].
  eexists. split; [done|]. split; [|split].
  - rewrite lookup_insert_ne by done. by rewrite lookup_insert_eq.
  - by rewrite lookup_insert_eq.
  - intros key Hl Hs. by rewrite !lookup_insert_ne.
Qed.

(** X14. For an index outside [-len .. len - 1] the dataset is unchanged
    and no file is looked at.  The transform is built first: if that raises
    (a crop size too large for a float, in validation mode) the call raises
    the same exception, otherwise it raises [IndexError]; the log holds
    what building the transform logged. *)
Theorem getitem_index_out_of_range (self : ImagenetOpenCVDataset.t)
    crop_h crop_w img_index :
  img_index < - ImagenetOpenCVDataset.__len__ self
  \/ ImagenetOpenCVDataset.__len__ self <= img_index ->
  let build := transform_for tf_Compose self crop_h crop_w self in
  ImagenetOpenCVDataset.__getitem__ Tensor read_image_opencv np_zeros
    Compose tf_Compose compose_call (crop_h, crop_w, img_index) self
  = (match build.1.1 with
     | Return _ => Raise IndexError
     | Raise e => Raise e
     end, self, build.2).
Proof. apply getitem_out_of_range_run. Qed.

(** X15. The only change [__getitem__] ever makes to the dataset, and all
    it logs.  Building the transform logs nothing in training mode and the
    warnings of [_validation_transforms] otherwise.  After that, either the
    object is as before and nothing more is logged, or the transform was
    built and exactly one sample, whose file could not be decoded, has been
    deleted from the list, with the index of the call logged once; then
    [is_training] and the crop ratio are as before and the length is one
    less.  The length never grows. *)
Theorem getitem_effect (self : ImagenetOpenCVDataset.t) crop_h crop_w img_index :
  let build := transform_for tf_Compose self crop_h crop_w self in
  let run := ImagenetOpenCVDataset.__getitem__ Tensor read_image_opencv np_zeros
               Compose tf_Compose compose_call (crop_h, crop_w, img_index) self in
  build.2
  = (if ImagenetOpenCVDataset.is_training self then []
     else map LoggerWarning
            (ImagenetOpenCVTransforms._validation_transforms
               (ImagenetOpenCVDataset.opts_dataset_imagenet_crop_ratio self)
               (ImagenetOpenCVTransforms.SizeSeq [crop_h; crop_w])).2)
  /\ ((run.1.2 = self /\ run.2 = build.2)
      \/ (exists i img_path target transform_fn,
            build.1.1 = Return transform_fn
            /\ ImagenetOpenCVDataset.samples self !! i = Some (img_path, target)
            /\ read_image_opencv img_path = None
            /\ ImagenetOpenCVDataset.samples run.1.2
               = delete i (ImagenetOpenCVDataset.samples self)
            /\ ImagenetOpenCVDataset.is_training run.1.2
               = ImagenetOpenCVDataset.is_training self
            /\ ImagenetOpenCVDataset.opts_dataset_imagenet_crop_ratio run.1.2
               = ImagenetOpenCVDataset.opts_dataset_imagenet_crop_ratio self
            /\ ImagenetOpenCVDataset.__len__ run.1.2 = ImagenetOpenCVDataset.__len__ self - 1
            /\ run.2 = build.2 ++ [PossiblyCorrupt img_index])).
Proof.
  intros build run. split; [apply transform_for_lines|]. subst build run.
  pose proof (transform_for_frame tf_Compose self crop_h crop_w) as Hframe.
  destruct (transform_for tf_Compose self crop_h crop_w self) as [[r s'] lines] eqn:Hb.
  cbn [fst snd] in *. subst s'. unfold transform_for in Hb.
  run_getitem. rewrite Hb. destruct r as [transform_fn|e]; cbn beta iota; [|by left].
  destruct (py_index (ImagenetOpenCVDataset.samples self) img_index) as [i|e] eqn:Hidx;
    cbn beta iota; [|left; by rewrite ?app_nil_r].
  destruct (ImagenetOpenCVDataset.samples self !! i) as [[img_path target]|] eqn:Hsample;
    cbn; [|left; by rewrite ?app_nil_r].
  destruct (read_image_opencv img_path) as [img|] eqn:Hread; cbn.
  { left. destruct (compose_call transform_fn _); cbn; by rewrite ?app_nil_r. }
  rewrite Hidx. cbn. right. exists i, img_path, target, transform_fn.
  assert (Hlen : ImagenetOpenCVDataset.__len__
                   (ImagenetOpenCVDataset.set_samples
                      (delete i (ImagenetOpenCVDataset.samples self)) self)
                 = ImagenetOpenCVDataset.__len__ self - 1).
  { unfold ImagenetOpenCVDataset.__len__, len. cbn.
    rewrite length_delete by (by eexists).
    apply lookup_lt_Some in Hsample. lia. }
  destruct (np_zeros crop_h crop_w 3) as [blank|e]; cbn; rewrite ?app_nil_r;
    [|by repeat split].
  destruct (compose_call transform_fn _); cbn; rewrite ?app_nil_r; by repeat split.
Qed.

(** X16. After the sample at a non-negative index has been removed as
    undecodable (the transform of that call having been built), the indices
    above it have moved down by one: the same index now addresses the
    sample that followed, and a call with the index of the former last
    sample leaves the dataset as it is and, once its transform is built,
    raises [IndexError]. *)
Theorem getitem_indices_shift (self : ImagenetOpenCVDataset.t)
    crop_h crop_w img_index img_path target transform_fn lines :
  0 <= img_index ->
  ImagenetOpenCVDataset.samples self !! Z.to_nat img_index = Some (img_path, target) ->
  read_image_opencv img_path = None ->
  transform_for tf_Compose self crop_h crop_w self = (Return transform_fn, self, lines) ->
  let self' := (ImagenetOpenCVDataset.__getitem__ Tensor read_image_opencv np_zeros
                  Compose tf_Compose compose_call (crop_h, crop_w, img_index) self).1.2 in
  ImagenetOpenCVDataset.samples self' !! Z.to_nat img_index
  = ImagenetOpenCVDataset.samples self !! S (Z.to_nat img_index)
  /\ forall crop_h' crop_w',
       let run := ImagenetOpenCVDataset.__getitem__ Tensor read_image_opencv np_zeros
                    Compose tf_Compose compose_call
                    (crop_h', crop_w', ImagenetOpenCVDataset.__len__ self - 1) self' in
       run.1.2 = self'
       /\ forall transform_fn' lines',
            transform_for tf_Compose self' crop_h' crop_w' self'
            = (Return transform_fn', self', lines') ->
            run.1.1 = Raise IndexError.
Proof.
  intros Hnonneg Hsample Hread Hbuild self'.
  assert (Hlt : img_index < len (ImagenetOpenCVDataset.samples self)).
  { apply lookup_lt_Some in Hsample. unfold len. lia. }
  assert (Hidx : py_index (ImagenetOpenCVDataset.samples self) img_index
                 = Return (Z.to_nat img_index)) by (apply py_index_nonneg; lia).
  assert (Hsamples : ImagenetOpenCVDataset.samples self'
                     = delete (Z.to_nat img_index) (ImagenetOpenCVDataset.samples self)).
  { subst self'.
    by rewrite (getitem_undecodable Tensor read_image_opencv np_zeros Compose tf_Compose
                  compose_call _ _ _ _ _ _ _ _ _ Hidx Hsample Hread Hbuild). }
  split.
  - rewrite Hsamples. by apply list_lookup_delete_ge.
  - intros crop_h' crop_w' run. subst run.
    rewrite getitem_out_of_range_run.
    + cbn [fst snd]. split; [done|]. intros transform_fn' lines' Hb. by rewrite Hb.
    + right. unfold ImagenetOpenCVDataset.__len__ at 1. rewrite Hsamples.
      unfold ImagenetOpenCVDataset.__len__, len.
      rewrite length_delete by (by eexists).
      apply lookup_lt_Some in Hsample. lia.
Qed.

End DatasetMore.

(** * The validation transform *)

Lemma foldl_min_spec (l : list Z) :
  forall x, foldl Z.min x l ∈ x :: l /\ Forall (fun y => foldl Z.min x l <= y) (x :: l).
Proof.
  induction l as [|y l IH]; intros x; cbn [foldl].
  - split; [by left|]. constructor; [lia|constructor].
  - destruct (IH (Z.min x y)) as [Hin Hle]. split.
    + apply elem_of_cons in Hin as [Hm|Hin].
      * rewrite Hm. destruct (Z.min_spec x y) as [[_ ->]|[_ ->]].
        -- by left.
        -- right. by left.
      * right. by right.
    + apply Forall_cons in Hle as [Hm Hle].
      constructor; [lia|]. constructor; [lia|done].
Qed.

Lemma py_min_spec (l : list Z) m :
  ImagenetOpenCVTransforms.py_min l = Return m -> m ∈ l /\ Forall (fun y => m <= y) l.
Proof.
  destruct l as [|x l]; [done|]. cbn. intros [= <-]. apply foldl_min_spec.
Qed.

Lemma ceil_default_ratio_upto_spec (n : Z) :
  ceil_default_ratio_upto n = true ->
  forall m, 1 <= m <= n ->
    exists x,
      PyFloat.of_int m = Return x
      /\ ImagenetOpenCVTransforms.math_ceil
           (SFdiv PyFloat.prec PyFloat.emax x ImagenetOpenCVTransforms.default_crop_ratio)
         = Return ((8 * m + 6) / 7).
Proof.
  unfold ceil_default_ratio_upto. intros Hall m Hm.
  assert (Hrange : 1 <= m < 1 + Z.of_nat (Z.to_nat n)).
  { rewrite Z2Nat.id; lia. }
  pose proof (all_from_spec _ _ _ Hall m Hrange) as Hk. cbn beta in Hk.
  destruct (PyFloat.of_int m) as [x|e]; [|done].
  exists x. split; [done|].
  destruct (ImagenetOpenCVTransforms.math_ceil _) as [c|e]; [|done].
  f_equal. by apply Z.eqb_eq.
Qed.

Lemma ceil_default_ratio_checked : ceil_default_ratio_upto 4096 = true.
Proof. vm_compute. reflexivity. Qed.

(** X17. What [_validation_transforms] builds whenever it returns: resize,
    centre crop, bit planes, tensor, in this order, the crop being the
    square whose side is the integer given or the smallest element of the
    tuple given.  For a crop ratio strictly between 0 and 1 the resize size
    is the largest multiple of 32 not above [ceil(side / crop_ratio)] and
    nothing is logged; for any other ratio, NaN included, it is
    [side + 32] and two warnings are logged. *)
Theorem validation_transforms_stages (crop_ratio : option PyFloat.float)
    (size : ImagenetOpenCVTransforms.size_arg)
    (stages : list ImagenetOpenCVTransforms.stage)
    (warnings : list ImagenetOpenCVTransforms.warning_line) :
  ImagenetOpenCVTransforms._validation_transforms crop_ratio size = (Return stages, warnings) ->
  exists side scale_size,
    match size with
    | ImagenetOpenCVTransforms.SizeInt n => side = n
    | ImagenetOpenCVTransforms.SizeSeq l => side ∈ l /\ Forall (fun y => side <= y) l
    end
    /\ stages = [ImagenetOpenCVTransforms.Resize scale_size;
                 ImagenetOpenCVTransforms.CenterCrop side;
                 ImagenetOpenCVTransforms.BitPlane side side;
                 ImagenetOpenCVTransforms.NumpyToTensor]
    /\ let r := getattr crop_ratio ImagenetOpenCVTransforms.default_crop_ratio in
       if ImagenetOpenCVTransforms.float_lt ImagenetOpenCVTransforms.float_zero r
          && ImagenetOpenCVTransforms.float_lt r one_point_zero
       then warnings = []
            /\ (32 | scale_size)
            /\ exists x c,
                 PyFloat.of_int side = Return x
                 /\ ImagenetOpenCVTransforms.math_ceil
                      (SFdiv PyFloat.prec PyFloat.emax x r) = Return c
                 /\ scale_size <= c < scale_size + 32
       else warnings = [ImagenetOpenCVTransforms.CropRatioOutOfRange r;
                        ImagenetOpenCVTransforms.SettingScaleSize]
            /\ scale_size = side + 32.
Proof.
  unfold ImagenetOpenCVTransforms._validation_transforms.
  set (r := getattr crop_ratio ImagenetOpenCVTransforms.default_crop_ratio).
  intros Hrun.
  assert (Hside : exists side,
             match size with
             | ImagenetOpenCVTransforms.SizeSeq l => ImagenetOpenCVTransforms.py_min l
             | ImagenetOpenCVTransforms.SizeInt n => Return n
             end = Return side
             /\ match size with
                | ImagenetOpenCVTransforms.SizeInt n => side = n
                | ImagenetOpenCVTransforms.SizeSeq l =>
                    side ∈ l /\ Forall (fun y => side <= y) l
                end).
  { destruct size as [n|l].
    - by exists n.
    - destruct (ImagenetOpenCVTransforms.py_min l) as [m|e] eqn:Hmin; [|done].
      exists m. split; [done|]. by apply py_min_spec. }
  destruct Hside as (side & Hsize & Hspec). rewrite Hsize in Hrun.
  exists side.
  destruct (ImagenetOpenCVTransforms.float_lt ImagenetOpenCVTransforms.float_zero r
            && ImagenetOpenCVTransforms.float_lt r one_point_zero) eqn:Hratio.
  - destruct (PyFloat.of_int side) as [x|e] eqn:Hx; [|done].
    destruct (ImagenetOpenCVTransforms.math_ceil _) as [c|e] eqn:Hc; [|done].
    injection Hrun as <- <-. exists (c / 32 * 32).
    split; [done|]. split; [done|]. cbv zeta.
    split; [done|]. split; [by exists (c / 32)|].
    exists x, c. split; [done|]. split; [done|].
    pose proof (Z.div_mod c 32 ltac:(lia)).
    pose proof (Z.mod_pos_bound c 32 ltac:(lia)). lia.
  - injection Hrun as <- <-. exists (side + 32).
    split; [done|]. split; [done|]. cbv zeta. done.
Qed.

(** X18. With the default crop ratio 0.875 and a crop side from 1 to 4096,
    the floating-point computation agrees with exact arithmetic: the resize
    size is the largest multiple of 32 not above [ceil(8 * side / 7)], and
    nothing is logged.  It is at least the crop side when the side is a
    multiple of 32. *)
Theorem validation_transforms_default_ratio (h w : Z) :
  1 <= Z.min h w <= 4096 ->
  let side := Z.min h w in
  let scale_size := (8 * side + 6) / 7 / 32 * 32 in
  ImagenetOpenCVTransforms._validation_transforms None
    (ImagenetOpenCVTransforms.SizeSeq [h; w])
  = (Return [ImagenetOpenCVTransforms.Resize scale_size;
             ImagenetOpenCVTransforms.CenterCrop side;
             ImagenetOpenCVTransforms.BitPlane side side;
             ImagenetOpenCVTransforms.NumpyToTensor], [])
  /\ ((32 | side) -> side <= scale_size).
Proof.
  intros Hside side scale_size. split.
  - unfold ImagenetOpenCVTransforms._validation_transforms.
    cbn [ImagenetOpenCVTransforms.py_min foldl getattr]. fold side.
    destruct (ceil_default_ratio_upto_spec 4096 ceil_default_ratio_checked side Hside)
      as (x & Hx & Hc).
    assert (Hratio : ImagenetOpenCVTransforms.float_lt ImagenetOpenCVTransforms.float_zero
                       ImagenetOpenCVTransforms.default_crop_ratio
                     && ImagenetOpenCVTransforms.float_lt
                          ImagenetOpenCVTransforms.default_crop_ratio one_point_zero = true)
      by reflexivity.
    rewrite Hratio, Hx, Hc. done.
  - intros [k Hk]. subst scale_size.
    assert (Hc : side <= (8 * side + 6) / 7).
    { apply Z.div_le_lower_bound; lia. }
    assert (Hq : k <= (8 * side + 6) / 7 / 32).
    { apply Z.div_le_lower_bound; lia. }
    lia.
Qed.

(** * Worked instances *)

(** Epoch 41 is not in the default [ep_intervals = [40]]: the samplers stay
    as they are. *)
Lemma update_scales_frame_witness :
  (VariableBatchSampler.update_scales sample_pairs 41 true sample_sampler).1.2
  = sample_sampler
  /\ (VariableBatchSamplerDDP.update_scales sample_pairs 41 true sample_sampler_ddp).1.2
     = sample_sampler_ddp.
Proof.
  destruct (update_scales_frame sample_pairs 41 true) as [Hdp Hddp].
  split.
  - apply Hdp. intros [Hin _]. apply list_elem_of_In in Hin.
    vm_compute in Hin. destruct Hin as [Hin|[]]. discriminate Hin.
  - apply Hddp. intros [Hin _]. vm_compute in Hin. discriminate Hin.
Defined.

(** At epoch 40 the minimum bounds go from 160 to 160 + int(160 * 0.5) and
    the maximum bounds from 320 to 320 + int(320 * 1.0). *)
Lemma update_scales_rule_witness :
  (let self' := (VariableBatchSampler.update_scales sample_pairs 40 true sample_sampler).1.2 in
   VariableBatchSampler.min_crop_size_w self' = 240
   /\ VariableBatchSampler.max_crop_size_w self' = 640
   /\ VariableBatchSampler.min_crop_size_h self' = 240
   /\ VariableBatchSampler.max_crop_size_h self' = 640
   /\ VariableBatchSampler.img_batch_tuples self' = [(224, 224, 4); (240, 240, 4)])
  /\ (let self' := (VariableBatchSamplerDDP.update_scales sample_pairs 40 true sample_sampler_ddp).1.2 in
      VariableBatchSamplerDDP.min_crop_size_w self' = 240
      /\ VariableBatchSamplerDDP.max_crop_size_w self' = 640
      /\ VariableBatchSamplerDDP.min_crop_size_h self' = 240
      /\ VariableBatchSamplerDDP.max_crop_size_h self' = 640
      /\ VariableBatchSamplerDDP.img_batch_tuples self' = [(224, 224, 4); (240, 240, 4)]).
Proof.
  destruct (update_scales_rule sample_pairs 40 true) as [Hdp Hddp].
  split.
  - destruct (Hdp sample_sampler 80 320 80 320) as (_ & Hminw & Hmaxw & Hminh & Hmaxh & Htuples & _).
    + apply list_elem_of_In. vm_compute. by left.
    + reflexivity.
    + vm_compute. reflexivity.
    + vm_compute. reflexivity.
    + vm_compute. reflexivity.
    + vm_compute. reflexivity.
    + cbv zeta. rewrite Htuples, Hminw, Hmaxw, Hminh, Hmaxh. vm_compute. by repeat split.
  - destruct (Hddp sample_sampler_ddp 80 320 80 320) as (_ & Hminw & Hmaxw & Hminh & Hmaxh & Htuples & _).
    + vm_compute. reflexivity.
    + reflexivity.
    + vm_compute. reflexivity.
    + vm_compute. reflexivity.
    + vm_compute. reflexivity.
    + vm_compute. reflexivity.
    + cbv zeta. rewrite Htuples, Hminw, Hmaxw, Hminh, Hmaxh. vm_compute. by repeat split.
Defined.

(** The two sample samplers hold the same scale tuples and yield the same
    batches. *)
Lemma samplers_agree_witness :
  VariableBatchSamplerDDP.__iter__ sample_sampler_ddp sample_indices sample_rnd 11
  = VariableBatchSampler.__iter__ sample_sampler sample_indices sample_rnd 11.
Proof.
  destruct (samplers_agree sample_pairs) as [Hiter _].
  apply Hiter. reflexivity.
Defined.

(** A pass of the sample samplers over ten indices. *)
Lemma iter_stages_witness :
  exists its : list iteration,
    (VariableBatchSampler.__iter__ sample_sampler sample_indices sample_rnd 11).1
    = map (yielded sample_indices) its
    /\ chained (len sample_indices) 0 its.
Proof.
  destruct (iter_stages (VariableBatchSampler.img_batch_tuples sample_sampler)
              sample_indices sample_rnd 11) as [Hdp _].
  - apply (positive_batch_sizes_check _ 4). reflexivity.
  - destruct (Hdp sample_sampler eq_refl) as (its & Hys & _ & Hchain).
    exists its. by split.
Defined.

Lemma iter_batch_length_witness :
  exists its : list iteration,
    (VariableBatchSampler.__iter__ sample_sampler sample_indices sample_rnd 11).1
    = map (yielded sample_indices) its
    /\ Forall (fun it => len (yielded sample_indices it) = it.2.2) its.
Proof.
  destruct (iter_batch_length (VariableBatchSampler.img_batch_tuples sample_sampler)
              sample_indices sample_rnd 11) as [Hdp _].
  - discriminate.
  - apply batch_sizes_within_spec. reflexivity.
  - destruct (Hdp sample_sampler eq_refl) as (its & Hys & Hall).
    exists its. split; [done|].
    eapply Forall_impl; [exact Hall|].
    intros [s [[h w] b]] (_ & Hlen & _). exact Hlen.
Defined.

Lemma iter_covers_witness :
  (VariableBatchSampler.__iter__ sample_sampler sample_indices sample_rnd 11).2 = Finished
  /\ forall i, i ∈ sample_indices ->
       exists (b : batch) crop_h crop_w,
         b ∈ (VariableBatchSampler.__iter__ sample_sampler sample_indices sample_rnd 11).1
         /\ (crop_h, crop_w, i) ∈ b.
Proof.
  destruct (iter_covers sample_sampler sample_indices sample_rnd) as [Hend Hcover].
  - discriminate.
  - apply (positive_batch_sizes_check _ 4). reflexivity.
  - split.
    + apply Hend. discriminate.
    + apply (Hcover 11%nat). apply Hend. discriminate.
Defined.



(** The first file of the sample dataset cannot be decoded: the list goes
    from two samples to one, and an item labelled with class 0 comes back. *)
Lemma getitem_corrupt_image_witness :
  let run := ImagenetOpenCVDataset.__getitem__ unit sample_read_image_opencv
               sample_np_zeros (list ImagenetOpenCVTransforms.stage)
               sample_tf_Compose sample_compose_call (2, 2, 0) sample_dataset in
  ImagenetOpenCVDataset.__len__ run.1.2 = 1
  /\ exists data, run.1.1 = Return data
       /\ data !! "label" = Some (ImagenetOpenCVDataset.VInt 0)
       /\ data !! "sample_id" = Some (ImagenetOpenCVDataset.VInt 0).
Proof.
  edestruct (getitem_corrupt_image unit sample_read_image_opencv sample_np_zeros
               (list ImagenetOpenCVTransforms.stage) sample_tf_Compose sample_compose_call
               sample_dataset 2 2 0 0%nat "n01440764/a.JPEG" 0)
    as (_ & Hlen & Hdata);
    [reflexivity | reflexivity | reflexivity | reflexivity |].
  destruct (Hdata _ _ eq_refl eq_refl) as (data & Hret & _ & Hlabel & Hid).
  split; [exact Hlen|]. exists data. by repeat split.
Defined.

(** C2 as stated does not hold: for the undecodable first file of the
    sample dataset the call returns a data item with the label and the
    index of that file. *)
Lemma getitem_does_not_skip :
  ~ skips_corrupt_image (Tensor := unit) sample_read_image_opencv sample_np_zeros
      sample_tf_Compose sample_compose_call.
Proof.
  intros Hskip.
  destruct (Hskip sample_dataset 2 2 0 0%nat "n01440764/a.JPEG" 0
              eq_refl eq_refl eq_refl) as [_ Hnone].
  erewrite (getitem_undecodable unit sample_read_image_opencv sample_np_zeros
              (list ImagenetOpenCVTransforms.stage) sample_tf_Compose sample_compose_call
              sample_dataset 2 2 0 0%nat "n01440764/a.JPEG" 0)
    in Hnone by reflexivity.
  eapply Hnone; [reflexivity|]. split.
  - rewrite lookup_insert_ne by done. by rewrite lookup_insert_eq.
  - by rewrite lookup_insert_eq.
Qed.

(** With [ep_intervals] given as the integer 40, the data-parallel sampler
    updates its scales at epoch 40 and the distributed one raises
    [TypeError]: only the former wraps the integer into a list. *)
Example ep_intervals_as_integer :
  (VariableBatchSampler.update_scales sample_pairs 40 false
     (VariableBatchSampler.__init__ sample_pairs 224 224 4 1 sample_opts_int 100 true)).1.1
  = Return tt
  /\ (VariableBatchSamplerDDP.update_scales sample_pairs 40 false
        (VariableBatchSamplerDDP.__init__ sample_pairs 224 224 4 1 sample_opts_int 100 true)).1.1
     = Raise TypeError.
Proof. split; vm_compute; reflexivity. Qed.

(** Python's arithmetic on the defaults: [int(160 * 1.0)], [int(160 * 0.1)],
    [int(-7 * 0.5)]. *)
Example int_mul_values :
  PyFloat.int_mul 160 one_point_zero = Return 160
  /\ PyFloat.int_mul 160 (PyFloat.of_ratio 1 10) = Return 16
  /\ PyFloat.int_mul (-7) (PyFloat.of_ratio 1 2) = Return (-3)
  /\ PyFloat.int_mul 160 (S754_infinity false) = Raise OverflowError.
Proof. repeat split; vm_compute; reflexivity. Qed.

(** A pass over five indices with batch size 2: the last batch wraps to the
    front of the list. *)
Example iter_wraps :
  VariableBatchSampler.while_loop sample_rnd [(224, 224, 2)] [10; 11; 12; 13; 14] 6 0 0
  = ([[(224, 224, 10); (224, 224, 11)];
      [(224, 224, 12); (224, 224, 13)];
      [(224, 224, 14); (224, 224, 10)]], Finished).
Proof. reflexivity. Qed.

(** Python's slices with a negative batch size: [end_index] is below the
    start and counts from the end of the list, so the positive batch sizes
    assumed above are needed. *)
Example negative_batch_size :
  VariableBatchSampler.while_loop sample_rnd [(1, 1, -2); (1, 1, 7)] [0; 1; 2; 3; 4] 3 0 0
  = ([[(1, 1, 0); (1, 1, 1); (1, 1, 2)];
      [(1, 1, 3); (1, 1, 4); (1, 1, 0); (1, 1, 1); (1, 1, 2); (1, 1, 3); (1, 1, 4)]],
     Finished).
Proof. reflexivity. Qed.

(** * Worked instances of the further properties *)

Lemma iter_degenerate_inputs_witness :
  VariableBatchSampler.__iter__ sample_sampler_empty sample_indices sample_rnd 5
  = ([], Raised IndexError).
Proof.
  destruct (iter_degenerate_inputs sample_rnd 4) as (_ & _ & Hdp & _).
  apply Hdp; [discriminate|reflexivity].
Defined.

Lemma iter_zero_batch_size_hangs_witness :
  VariableBatchSampler.__iter__ sample_sampler_zero sample_indices sample_rnd 1000
  = ([], Running).
Proof.
  destruct (iter_zero_batch_size_hangs [(224, 224, 0)] sample_indices sample_rnd 1000)
    as [Hdp _].
  - discriminate.
  - discriminate.
  - intros h w b Hin. apply list_elem_of_In in Hin.
    destruct Hin as [Hin|[]]. by injection Hin.
  - apply Hdp. reflexivity.
Defined.

Lemma iter_elements_from_inputs_witness :
  Forall (fun b : batch => forall x, x ∈ b -> x.2 ∈ sample_indices)
    (VariableBatchSampler.__iter__ sample_sampler sample_indices sample_rnd 11).1.
Proof.
  destruct (iter_elements_from_inputs sample_indices sample_rnd 11) as [Hdp _].
  eapply Forall_impl; [apply (Hdp sample_sampler)|].
  intros b (_ & h & w & bs & _ & Hall) x Hx. by destruct (Hall x Hx).
Defined.

(** The first batch of the sample pass is followed by others: it is the
    first four indices at the base crop size. *)
Lemma iter_only_last_batch_padded_witness :
  exists start crop_h crop_w batch_size,
    (crop_h, crop_w, batch_size) ∈ VariableBatchSampler.img_batch_tuples sample_sampler
    /\ 0 <= start /\ start + batch_size < len sample_indices
    /\ [(224, 224, 0); (224, 224, 1); (224, 224, 2); (224, 224, 3)]
       = map (fun b_id => (crop_h, crop_w, b_id))
             (take (Z.to_nat batch_size) (drop (Z.to_nat start) sample_indices)).
Proof.
  destruct (iter_only_last_batch_padded
              (VariableBatchSampler.img_batch_tuples sample_sampler)
              sample_indices sample_rnd 11) as [Hdp _].
  - apply (positive_batch_sizes_check _ 4). reflexivity.
  - apply (Hdp sample_sampler 0%nat); [reflexivity|reflexivity|].
    vm_compute. lia.
Defined.

Lemma iter_batches_without_repetition_witness :
  Forall (fun b : batch => NoDup b)
    (VariableBatchSampler.__iter__ sample_sampler sample_indices sample_rnd 11).1.
Proof.
  destruct (iter_batches_without_repetition
              (VariableBatchSampler.img_batch_tuples sample_sampler)
              sample_indices sample_rnd 11) as [Hdp _].
  - apply (NoDup_ListNoDup sample_indices). unfold sample_indices.
    repeat (constructor; [cbn; intros Hin; repeat destruct Hin as [Hin|Hin]; discriminate Hin || done|]).
    constructor.
  - apply batch_sizes_within_spec. reflexivity.
  - apply Hdp. reflexivity.
Defined.

(** Ten indices, three per batch: four batches. *)
Lemma iter_single_scale_batch_count_witness :
  (VariableBatchSampler.__iter__ sample_sampler_val sample_indices sample_rnd 11).2 = Finished
  /\ len (VariableBatchSampler.__iter__ sample_sampler_val sample_indices sample_rnd 11).1 = 4.
Proof.
  destruct (iter_single_scale_batch_count 224 224 3 sample_indices sample_rnd) as [Hdp _].
  - lia.
  - destruct (Hdp sample_sampler_val eq_refl) as [Hfin Hcount].
    split; [exact Hfin|exact Hcount].
Defined.

Lemma iter_pass_size_witness :
  len (VariableBatchSampler.__iter__ sample_sampler sample_indices sample_rnd 11).1 <= 10
  /\ 10 <= len (concat (VariableBatchSampler.__iter__ sample_sampler sample_indices
                          sample_rnd 11).1).
Proof.
  destruct (iter_pass_size (VariableBatchSampler.img_batch_tuples sample_sampler)
              sample_indices sample_rnd 11) as [Hdp _].
  - apply (positive_batch_sizes_check _ 4). reflexivity.
  - apply (Hdp sample_sampler); reflexivity.
Defined.

(** With an infinite maximum factor the update at epoch 40 raises after the
    minimum width has gone from 160 to 240; the scale tuples are the old
    ones. *)
Lemma update_scales_raises_half_way_witness :
  let run := VariableBatchSampler.update_scales sample_pairs 40 true sample_sampler_inf in
  run.1.1 = Raise OverflowError
  /\ VariableBatchSampler.min_crop_size_w run.1.2 = 240
  /\ VariableBatchSampler.max_crop_size_w run.1.2 = 320
  /\ VariableBatchSampler.img_batch_tuples run.1.2
     = VariableBatchSampler.img_batch_tuples sample_sampler_inf
  /\ run.2 = [].
Proof.
  destruct (update_scales_raises_half_way sample_pairs 40 true) as (Hany & Hhalf & _).
  destruct (Hhalf sample_sampler_inf 80 OverflowError)
    as (Hout & Hminw & Hmaxw & _).
  - apply list_elem_of_In. vm_compute. by left.
  - reflexivity.
  - vm_compute. reflexivity.
  - vm_compute. reflexivity.
  - destruct (Hany sample_sampler_inf OverflowError Hout) as [Htuples Hlog].
    cbv zeta. rewrite Hout, Hminw, Hmaxw, Htuples, Hlog. by repeat split.
Defined.

Lemma integer_ep_intervals_witness :
  VariableBatchSamplerDDP.update_scales sample_pairs 40 true
    (VariableBatchSamplerDDP.__init__ sample_pairs 224 224 4 1 sample_opts_int 100 true)
  = (Raise TypeError,
     VariableBatchSamplerDDP.__init__ sample_pairs 224 224 4 1 sample_opts_int 100 true,
     []).
Proof.
  destruct (integer_ep_intervals sample_pairs 224 224 4 1 sample_opts_int 100 true
              40 40 true) as [_ Hddp].
  - reflexivity.
  - exact Hddp.
Defined.

(** The default bounds 160 and 320 double to 320 and 640. *)
Lemma update_scales_default_factors_witness :
  let run := VariableBatchSampler.update_scales sample_pairs 40 false
               sample_sampler_default in
  run.1.1 = Return tt
  /\ VariableBatchSampler.min_crop_size_w run.1.2 = 320
  /\ VariableBatchSampler.max_crop_size_w run.1.2 = 640
  /\ VariableBatchSampler.min_crop_size_h run.1.2 = 320
  /\ VariableBatchSampler.max_crop_size_h run.1.2 = 640.
Proof.
  destruct (update_scales_default_factors sample_pairs 40 false) as [Hdp _].
  destruct (Hdp sample_sampler_default) as (Hout & Hminw & Hmaxw & Hminh & Hmaxh).
  - apply list_elem_of_In. vm_compute. by left.
  - reflexivity.
  - reflexivity.
  - reflexivity.
  - vm_compute. split; discriminate.
  - vm_compute. split; discriminate.
  - vm_compute. split; discriminate.
  - vm_compute. split; discriminate.
  - cbv zeta. rewrite Hout, Hminw, Hmaxw, Hminh, Hmaxh. by repeat split.
Defined.

Lemma getitem_decodable_witness :
  let run := ImagenetOpenCVDataset.__getitem__ unit sample_read_one_pixel
               sample_np_zeros (list ImagenetOpenCVTransforms.stage)
               sample_tf_Compose sample_compose_call (1, 1, -1) sample_dataset in
  run.1.2 = sample_dataset
  /\ run.2 = []
  /\ exists data,
       run.1.1 = Return data
       /\ data !! "label" = Some (ImagenetOpenCVDataset.VInt 1)
       /\ data !! "sample_id" = Some (ImagenetOpenCVDataset.VInt (-1)).
Proof.
  edestruct (getitem_decodable unit sample_read_one_pixel sample_np_zeros
               (list ImagenetOpenCVTransforms.stage) sample_tf_Compose sample_compose_call
               sample_dataset 1 1 (-1) 1%nat "n01443537/b.JPEG" 1 [[[10; 20; 30]]])
    as (Hself & Hlog & Hcall);
    [reflexivity | reflexivity | reflexivity | reflexivity |].
  unfold sample_compose_call in Hcall.
  destruct Hcall as (data & Hret & Hlabel & Hid & _).
  split; [exact Hself|]. split; [exact Hlog|]. exists data. by repeat split.
Defined.

Lemma getitem_index_out_of_range_witness :
  ImagenetOpenCVDataset.__getitem__ unit sample_read_one_pixel
    sample_np_zeros (list ImagenetOpenCVTransforms.stage)
    sample_tf_Compose sample_compose_call (224, 224, 2) sample_dataset
  = (Raise IndexError, sample_dataset, []).
Proof.
  pose proof (getitem_index_out_of_range unit sample_read_one_pixel sample_np_zeros
                (list ImagenetOpenCVTransforms.stage) sample_tf_Compose sample_compose_call
                sample_dataset 224 224 2) as Hrun.
  cbv zeta in Hrun. apply Hrun.
  right. vm_compute. discriminate.
Defined.

(** In validation mode with a crop ratio of 1.0 the transform is built with
    two warnings before the index is looked at; with a crop size too large
    for a float, building it raises [OverflowError] and the index is never
    looked at. *)
Example getitem_validation_out_of_range :
  ImagenetOpenCVDataset.__getitem__ unit sample_read_one_pixel
    sample_np_zeros (list ImagenetOpenCVTransforms.stage)
    sample_tf_Compose sample_compose_call (224, 256, 2) sample_dataset_val
  = (Raise IndexError, sample_dataset_val,
     [LoggerWarning (ImagenetOpenCVTransforms.CropRatioOutOfRange one_point_zero);
      LoggerWarning ImagenetOpenCVTransforms.SettingScaleSize])
  /\ ImagenetOpenCVDataset.__getitem__ unit sample_read_one_pixel
       sample_np_zeros (list ImagenetOpenCVTransforms.stage)
       sample_tf_Compose sample_compose_call (2 ^ 1100, 2 ^ 1100, 0) sample_dataset_default_val
     = (Raise OverflowError, sample_dataset_default_val, []).
Proof. split; vm_compute; reflexivity. Qed.

(** Once the first file has been dropped, index 0 addresses the second
    file and index 1 is out of range. *)
Lemma getitem_indices_shift_witness :
  let self' := (ImagenetOpenCVDataset.__getitem__ unit sample_read_image_opencv
                  sample_np_zeros (list ImagenetOpenCVTransforms.stage)
                  sample_tf_Compose sample_compose_call (2, 2, 0) sample_dataset).1.2 in
  ImagenetOpenCVDataset.samples self' !! 0%nat = Some ("n01443537/b.JPEG", 1)
  /\ (ImagenetOpenCVDataset.__getitem__ unit sample_read_image_opencv
        sample_np_zeros (list ImagenetOpenCVTransforms.stage)
        sample_tf_Compose sample_compose_call (2, 2, 1) self').1.1
     = Raise IndexError.
Proof.
  edestruct (getitem_indices_shift unit sample_read_image_opencv sample_np_zeros
               (list ImagenetOpenCVTransforms.stage) sample_tf_Compose sample_compose_call
               sample_dataset 2 2 0 "n01440764/a.JPEG" 0)
    as [Hshift Hlast]; [lia | reflexivity | reflexivity | reflexivity |].
  split; [exact Hshift|].
  pose proof (Hlast 2 2) as Hrun. cbv zeta in Hrun.
  destruct Hrun as [_ Hraise]. eapply Hraise. reflexivity.
Defined.

Lemma validation_transforms_stages_witness :
  exists side scale_size,
    (side ∈ [224; 256] /\ Forall (fun y => side <= y) [224; 256])
    /\ [ImagenetOpenCVTransforms.Resize 256;
        ImagenetOpenCVTransforms.CenterCrop 224;
        ImagenetOpenCVTransforms.BitPlane 224 224;
        ImagenetOpenCVTransforms.NumpyToTensor]
       = [ImagenetOpenCVTransforms.Resize scale_size;
          ImagenetOpenCVTransforms.CenterCrop side;
          ImagenetOpenCVTransforms.BitPlane side side;
          ImagenetOpenCVTransforms.NumpyToTensor].
Proof.
  destruct (validation_transforms_stages None
              (ImagenetOpenCVTransforms.SizeSeq [224; 256])
              [ImagenetOpenCVTransforms.Resize 256;
               ImagenetOpenCVTransforms.CenterCrop 224;
               ImagenetOpenCVTransforms.BitPlane 224 224;
               ImagenetOpenCVTransforms.NumpyToTensor] [])
    as (side & scale_size & Hside & Hstages & _).
  - vm_compute. reflexivity.
  - exists side, scale_size. by split.
Defined.

(** [224 / 0.875 = 256], as the comment in the source has it. *)
Lemma validation_transforms_default_ratio_witness :
  ImagenetOpenCVTransforms._validation_transforms None
    (ImagenetOpenCVTransforms.SizeSeq [224; 256])
  = (Return [ImagenetOpenCVTransforms.Resize 256;
             ImagenetOpenCVTransforms.CenterCrop 224;
             ImagenetOpenCVTransforms.BitPlane 224 224;
             ImagenetOpenCVTransforms.NumpyToTensor], []).
Proof.
  destruct (validation_transforms_default_ratio 224 256) as [Hrun _].
  - vm_compute. split; discriminate.
  - exact Hrun.
Defined.

(** A crop side that is not a multiple of 32 can end above the resize
    size: 55 is resized to 32. *)
Example validation_resize_below_crop :
  ImagenetOpenCVTransforms._validation_transforms None
    (ImagenetOpenCVTransforms.SizeSeq [55; 60])
  = (Return [ImagenetOpenCVTransforms.Resize 32;
             ImagenetOpenCVTransforms.CenterCrop 55;
             ImagenetOpenCVTransforms.BitPlane 55 55;
             ImagenetOpenCVTransforms.NumpyToTensor], []).
Proof. vm_compute. reflexivity. Qed.

(** Two indices and a batch size of 5: the batch is the list twice, four
    elements. *)
Lemma iter_oversized_batch_witness :
  exists crop_h crop_w batch_size,
    VariableBatchSampler.__iter__
      (VariableBatchSampler.set_img_batch_tuples [(224, 224, 5)] sample_sampler)
      [7; 8] sample_rnd 2
    = ([map (fun b_id => (crop_h, crop_w, b_id))
            ([7; 8] ++ take (Z.to_nat (batch_size - 2)) [7; 8])], Finished)
    /\ len ([7; 8] ++ take (Z.to_nat (batch_size - 2)) [7; 8]) = 4.
Proof.
  destruct (iter_oversized_batch [(224, 224, 5)] [7; 8] sample_rnd 0)
    as (h & w & b & Hin & Hlen & Hdp & _).
  - discriminate.
  - discriminate.
  - intros h w b Hin. apply list_elem_of_In in Hin.
    destruct Hin as [Hin|[]]. injection Hin as _ _ <-. vm_compute. reflexivity.
  - exists h, w, b. split.
    + apply Hdp. reflexivity.
    + apply list_elem_of_In in Hin. destruct Hin as [Hin|[]].
      injection Hin as _ _ <-. reflexivity.
Defined.
